(** * Corridor Profile dashboard expressions (ArcGIS Arcade)

    A shallow embedding of the Arcade expressions under
    [Corridor_Profile/ArcadeScripts] and [Corridor_Profile/Scripts/ArcadeScripts],
    followed by the properties the specification states about them.

    Every script reads the profile variable [$dataSources], branches on the
    presence of the full-layer data source and on the selection, computes one
    display string and returns it inside a record with constant styling.

    Conventions of the embedding:
    - Arcade numbers are IEEE 754 doubles.  A finite double is given by the
      rational number it denotes; the operators [+], [-], [*] and [/] of the
      scripts round the exact result to the nearest double, ties to even,
      and overflow to an infinity ([fadd], [fsub], [fmul], [fdiv]).  The
      sign of a zero is not kept; no script divides by a zero.  [Round] and
      [Text] belong to the runtime; they are modelled on the rational
      value, halves rounding away from zero.
    - Features and dictionaries are finite maps from key to value.  Bracket
      access [d[k]] raises when [k] is not a key; this is why the sources
      guard [$dataSources[fullLayerID]] with [HasKey] and why two of the
      scripts wrap every field access in the helper [GetVal] ("safely get
      values even if field is missing from schema").  Evaluation therefore
      lives in an error monad.
    - Field names are compared exactly (the scripts always spell a field the
      same way). *)

From Stdlib Require Import Ascii String QArith Qround Qabs Qpower Lqa DecimalString.
From stdpp Require Import gmap strings list fin_maps.

Local Open Scope string_scope.

(** ** Evaluation results *)

Inductive error : Type :=
  | KeyNotFound (key : string).

Inductive result (A : Type) : Type :=
  | Ok (a : A)
  | Raise (e : error).
Arguments Ok {A} a.
Arguments Raise {A} e.

#[global] Instance result_ret : MRet result := λ A, Ok.
#[global] Instance result_bind : MBind result :=
  λ A B f m, match m with Ok a => f a | Raise e => Raise e end.

(** ** The host language: values and built-in functions

    The built-in functions belong to the Arcade runtime, not to the
    repository.  They are modelled after the Arcade function reference, for
    the values and the format pictures the scripts use. *)

Module Arcade.

(** Numbers: NaN, a finite number, or an infinity with its sign. *)
Inductive num : Type :=
  | NaN
  | Fin (q : Q)
  | Inf (negative : bool).

(** Field values: number, text or null. *)
Inductive Value : Type :=
  | VNull
  | VNum (n : num)
  | VText (s : string).

Record DataSource : Type := {
  layer : list (gmap string Value);
  selectedFeatures : list (gmap string Value)
}.

(** *** Arithmetic and comparison on numbers *)

Definition Qltb (x y : Q) : bool := negb (Qle_bool y x).

Definition nneg (a : num) : num :=
  match a with
  | NaN => NaN
  | Fin x => Fin (- x)
  | Inf s => Inf (negb s)
  end.

(** The operations before rounding: the exact result on finite numbers,
    and the IEEE rules for NaN and the infinities. *)
Definition nadd (a b : num) : num :=
  match a, b with
  | Fin x, Fin y => Fin (x + y)
  | Inf s, Inf t => if Bool.eqb s t then Inf s else NaN
  | Inf s, Fin _ => Inf s
  | Fin _, Inf t => Inf t
  | _, _ => NaN
  end.

Definition nsub (a b : num) : num := nadd a (nneg b).

Definition nmul (a b : num) : num :=
  match a, b with
  | Fin x, Fin y => Fin (x * y)
  | Inf s, Inf t => Inf (xorb s t)
  | Inf s, Fin y => if Qeq_bool y 0 then NaN else Inf (xorb s (Qltb y 0))
  | Fin x, Inf t => if Qeq_bool x 0 then NaN else Inf (xorb (Qltb x 0) t)
  | _, _ => NaN
  end.

Definition ndiv (a b : num) : num :=
  match a, b with
  | Fin x, Fin y =>
      if Qeq_bool y 0 then (if Qeq_bool x 0 then NaN else Inf (Qltb x 0))
      else Fin (x / y)%Q
  | Fin _, Inf _ => Fin 0
  | Inf s, Fin y => Inf (xorb s (Qltb y 0))
  | _, _ => NaN
  end.

Definition nabs (a : num) : num :=
  match a with
  | Fin x => Fin (Qabs x)
  | Inf _ => Inf false
  | NaN => NaN
  end.

(** Comparisons are false as soon as one side is NaN. *)
Definition nlt (a b : num) : bool :=
  match a, b with
  | Fin x, Fin y => Qltb x y
  | Fin _, Inf t => negb t
  | Inf s, Fin _ => s
  | Inf s, Inf t => s && negb t
  | _, _ => false
  end.

Definition nge (a b : num) : bool :=
  match a, b with
  | Fin x, Fin y => Qle_bool y x
  | Fin _, Inf t => t
  | Inf s, Fin _ => negb s
  | Inf s, Inf t => negb s || t
  | _, _ => false
  end.

Definition ngt (a b : num) : bool := nlt b a.

(** *** Rounding to the nearest double

    A double has a 53-bit significand and a binary exponent between -1074
    and 971 for its last bit. *)

(** For [a > 0], the [e] with [2^e <= a < 2^(e+1)]. *)
Definition floorLog2 (a : Q) : Z :=
  let k := (Z.log2 (Qnum a) - Z.log2 (Z.pos (Qden a)))%Z in
  if Qle_bool (Qpower 2 k) a then k else (k - 1)%Z.

(** The nearest integer to [x >= 0], a tie going to the even one. *)
Definition roundHalfEven (x : Q) : Z :=
  let f := Qfloor x in
  match (x - inject_Z f ?= 1 # 2)%Q with
  | Lt => f
  | Gt => (f + 1)%Z
  | Eq => if Z.even f then f else (f + 1)%Z
  end.

(** The double nearest to [a > 0]: [a] is rounded to a multiple of the unit
    in the last place, [2^e]; a result of [2^1024] or more is an overflow. *)
Definition roundMagnitude (a : Q) : num :=
  let e := Z.max (floorLog2 a - 52) (-1074) in
  let ulp := Qpower 2 e in
  let r := (inject_Z (roundHalfEven (a / ulp)) * ulp)%Q in
  if Qle_bool (Qpower 2 1024) r then Inf false else Fin (Qred r).

Definition round64 (q : Q) : num :=
  if Qeq_bool q 0 then Fin 0
  else if Qle_bool 0 q then roundMagnitude q
  else nneg (roundMagnitude (- q)).

Definition rounded (n : num) : num :=
  match n with
  | Fin q => round64 q
  | _ => n
  end.

(** The operators [+], [-], [*], [/] of the scripts. *)
Definition fadd (a b : num) : num := rounded (nadd a b).
Definition fsub (a b : num) : num := rounded (nsub a b).
Definition fmul (a b : num) : num := rounded (nmul a b).
Definition fdiv (a b : num) : num := rounded (ndiv a b).

(** *** Text to number

    [Number] of a text reads a plain decimal literal: an optional minus
    sign, digits, and an optional fractional part, and gives the double
    nearest to it.  Any other text is NaN. *)

Fixpoint splitDot (s : string) : string * option string :=
  match s with
  | "" => ("", None)
  | String c r =>
      if Ascii.eqb c "."%char then ("", Some r)
      else let '(a, b) := splitDot r in (String c a, b)
  end.

Definition digitsToZ (s : string) : option Z :=
  (λ u, Z.of_N (N.of_uint u)) <$> NilEmpty.uint_of_string s.

Definition parseUnsigned (s : string) : num :=
  let '(ip, fp) := splitDot s in
  let fp := default "" fp in
  if (String.length ip + String.length fp =? 0)%nat then NaN
  else
    match digitsToZ ip, digitsToZ fp with
    | Some i, Some f =>
        let scale := (10 ^ Z.of_nat (String.length fp))%Z in
        Fin (inject_Z (i * scale + f) / inject_Z scale)%Q
    | _, _ => NaN
    end.

Definition parseNumber (s : string) : num :=
  match s with
  | String "-"%char r =>
      nneg (parseUnsigned r)
  | _ => parseUnsigned s
  end.

(** [Number(v)], also the implicit cast applied by the arithmetic and
    comparison operators: null and the empty text are 0. *)
Definition Number (v : Value) : num :=
  match v with
  | VNull => Fin 0
  | VNum n => n
  | VText "" => Fin 0
  | VText s => rounded (parseNumber s)
  end.

(** *** Predicates *)

Definition IsEmpty (v : Value) : bool :=
  match v with
  | VNull => true
  | VText "" => true
  | _ => false
  end.

Definition IsNan (v : Value) : bool :=
  match v with
  | VNum NaN => true
  | _ => false
  end.

Definition HasKey {V} (d : gmap string V) (key : string) : bool :=
  bool_decide (is_Some (d !! key)).

(** Bracket access [d[key]] on a dictionary or a feature. *)
Definition bracket {V} (d : gmap string V) (key : string) : result V :=
  match d !! key with
  | Some v => Ok v
  | None => Raise (KeyNotFound key)
  end.

(** *** Rounding and number formatting *)

Definition roundHalfAway (q : Q) : Z :=
  if Qle_bool 0 q then Qfloor (q + (1 # 2))%Q else (- Qfloor (- q + (1 # 2))%Q)%Z.

Definition pow10 (k : nat) : Z := (10 ^ Z.of_nat k)%Z.

(** [Round(value, numPlaces)], on the number the value casts to. *)
Definition Round (n : num) (numPlaces : nat) : num :=
  match n with
  | NaN => NaN
  | Inf s => Inf s
  | Fin q =>
      Fin (inject_Z (roundHalfAway (q * inject_Z (pow10 numPlaces)))
           / inject_Z (pow10 numPlaces))%Q
  end.

Definition natDigits (z : Z) : string :=
  NilZero.string_of_uint (N.to_uint (Z.to_N z)).

Fixpoint zeros (n : nat) : string :=
  match n with
  | O => ""
  | S k => String "0"%char (zeros k)
  end.

(** Zeros in front, up to [width] characters. *)
Definition padLeft (width : nat) (s : string) : string :=
  zeros (width - String.length s) ++ s.

(** Drop trailing zeros of a reversed digit list while more than [keep]
    digits remain. *)
Fixpoint dropZeros (keep : nat) (rev_digits : list ascii) : list ascii :=
  match rev_digits with
  | c :: r =>
      if Ascii.eqb c "0"%char && (keep <? List.length rev_digits)%nat
      then dropZeros keep r else rev_digits
  | [] => []
  end.

Definition trimFraction (keep : nat) (s : string) : string :=
  string_of_list_ascii (rev (dropZeros keep (rev (list_ascii_of_string s)))).

(** Insert a comma before every complete group of three digits, reading
    the reversed digit list. *)
Fixpoint groupRev (n : nat) (rev_digits : list ascii) : list ascii :=
  match rev_digits with
  | [] => []
  | c :: r =>
      match r with
      | [] => [c]
      | _ => if (n =? 2)%nat then c :: ","%char :: groupRev 0 r
             else c :: groupRev (S n) r
      end
  end.

Definition groupThousands (s : string) : string :=
  string_of_list_ascii (rev (groupRev 0 (rev (list_ascii_of_string s)))).

Record NumberFormat : Type := {
  grouping : bool;
  percent : bool;
  minFrac : nat;
  maxFrac : nat
}.

Definition countChar (c : ascii) (s : string) : nat :=
  List.length (filter (λ x, x = c) (list_ascii_of_string s)).

(** The format picture: [,] asks for digit grouping, [%] for a percentage,
    and after the decimal point [0] is a mandatory and [#] an optional
    digit. *)
Definition parseFormat (fmt : string) : NumberFormat :=
  let '(ip, fp) := splitDot fmt in
  let fp := default "" fp in
  {| grouping := bool_decide (0 < countChar ","%char ip)%nat;
     percent := bool_decide (0 < countChar "%"%char fmt)%nat;
     minFrac := countChar "0"%char fp;
     maxFrac := (countChar "0"%char fp + countChar "#"%char fp)%nat |}.

Definition formatNumber (f : NumberFormat) (q : Q) : string :=
  let q := if percent f then (q * 100)%Q else q in
  let scale := pow10 (maxFrac f) in
  let scaled := roundHalfAway (q * inject_Z scale)%Q in
  let a := Z.abs scaled in
  let ip := natDigits (a / scale)%Z in
  let fp := trimFraction (minFrac f) (padLeft (maxFrac f) (natDigits (a mod scale)%Z)) in
  let fp := if (maxFrac f =? 0)%nat then "" else fp in
  (if (scaled <? 0)%Z then "-" else "")
  ++ (if grouping f then groupThousands ip else ip)
  ++ (if (String.length fp =? 0)%nat then "" else "." ++ fp)
  ++ (if percent f then "%" else "").

Definition defaultFormat : NumberFormat :=
  {| grouping := false; percent := false; minFrac := 0; maxFrac := 16 |}.

Definition infinityText (negative : bool) : string :=
  if negative then "-Infinity" else "Infinity".

(** [Text(value, format)] *)
Definition Text (v : Value) (fmt : string) : string :=
  match v with
  | VNull => ""
  | VText s => s
  | VNum NaN => "NaN"
  | VNum (Inf s) => infinityText s
  | VNum (Fin q) => formatNumber (parseFormat fmt) q
  end.

(** The conversion applied when a value is concatenated to a text with [+]. *)
Definition toText (v : Value) : string :=
  match v with
  | VNull => ""
  | VText s => s
  | VNum NaN => "NaN"
  | VNum (Inf s) => infinityText s
  | VNum (Fin q) => formatNumber defaultFormat q
  end.

(** *** Text functions *)

(** [Replace(value, searchText, replacementText)]: every occurrence of
    [searchText] is replaced, scanning from the left ([allOccurrences]
    defaults to true).  [skip] counts the characters of a match that are
    still to be passed over. *)
Fixpoint replaceFrom (searchText replacementText : string) (skip : nat)
    (s : string) : string :=
  match s with
  | "" => ""
  | String c r =>
      match skip with
      | S k => replaceFrom searchText replacementText k r
      | O =>
          if String.prefix searchText s
          then replacementText
               ++ replaceFrom searchText replacementText
                    (String.length searchText - 1) r
          else String c (replaceFrom searchText replacementText 0 r)
      end
  end.

Definition Replace (s searchText replacementText : string) : string :=
  match searchText with
  | "" => s
  | _ => replaceFrom searchText replacementText 0 s
  end.

Definition lowerChar (c : ascii) : ascii :=
  let n := nat_of_ascii c in
  if (65 <=? n)%nat && (n <=? 90)%nat then ascii_of_nat (n + 32) else c.

Fixpoint Lower (s : string) : string :=
  match s with
  | "" => ""
  | String c r => String (lowerChar c) (Lower r)
  end.

Definition isSpace (c : ascii) : bool :=
  let n := nat_of_ascii c in
  (n =? 32)%nat || ((9 <=? n)%nat && (n <=? 13)%nat).

Fixpoint trimLeft (l : list ascii) : list ascii :=
  match l with
  | c :: r => if isSpace c then trimLeft r else l
  | [] => []
  end.

Definition Trim (s : string) : string :=
  string_of_list_ascii
    (rev (trimLeft (rev (trimLeft (list_ascii_of_string s))))).

(** *** Feature sets *)

Definition Count {A} (items : list A) : nat := List.length items.

Definition First {A} (items : list A) : option A := head items.

(** [Sum(features, fieldName)]: the cast values of the field, added up in
    the order of the features; 0 for an empty feature set. *)
Fixpoint sumFrom (features : list (gmap string Value)) (fieldName : string)
    (total : num) : result num :=
  match features with
  | [] => Ok total
  | f :: rest =>
      v ← bracket f fieldName;
      sumFrom rest fieldName (fadd total (Number v))
  end.

Definition Sum (features : list (gmap string Value)) (fieldName : string)
    : result num :=
  sumFrom features fieldName (Fin 0).

Definition valueEqb (a b : Value) : bool :=
  match a, b with
  | VNull, VNull => true
  | VNum NaN, VNum NaN => true
  | VNum (Fin x), VNum (Fin y) => Qeq_bool x y
  | VNum (Inf s), VNum (Inf t) => Bool.eqb s t
  | VText s, VText t => String.eqb s t
  | _, _ => false
  end.

Fixpoint distinctValues (seen : list Value) (vs : list Value) : list Value :=
  match vs with
  | [] => []
  | v :: r =>
      if existsb (valueEqb v) seen then distinctValues seen r
      else v :: distinctValues (v :: seen) r
  end.

Fixpoint column (features : list (gmap string Value)) (fieldName : string)
    : result (list Value) :=
  match features with
  | [] => Ok []
  | f :: rest =>
      v ← bracket f fieldName;
      vs ← column rest fieldName;
      Ok (v :: vs)
  end.

(** [Distinct(features, fieldName)]: one row per distinct value. *)
Definition Distinct (features : list (gmap string Value)) (fieldName : string)
    : result (list Value) :=
  vs ← column features fieldName;
  Ok (distinctValues [] vs).

End Arcade.
Import Arcade.

(** ** What every script shares *)

(** The record handed to the widget: [{ value, text: { size, bold, ... } }]. *)
Module Widget.
Record TextStyle : Type := {
  size : Z;
  bold : bool;
  color : string;
  italic : bool;
  underline : bool;
  strike : bool
}.
Record Output : Type := {
  value : string;
  text : TextStyle
}.
End Widget.

(** The [return { value: displayText, text: { ... } }] that ends a script;
    only [size] differs between scripts. *)
Definition styled (size : Z) (displayText : string) : Widget.Output :=
  {| Widget.value := displayText;
     Widget.text := {| Widget.size := size;
                       Widget.bold := true;
                       Widget.color := "rgb(0, 86, 169)";
                       Widget.italic := false;
                       Widget.underline := false;
                       Widget.strike := false |} |}.

(** Lines 5 and 10 of every script. *)
Definition selectionID : string :=
  "dataSource_56-19abd51320a-layer-1-19abd51336a-layer-3-selection".

Definition fullLayerIDOf (selectionID : string) : string :=
  Replace selectionID "-selection" "".

Definition fullLayerID : string := fullLayerIDOf selectionID.

Definition accessError : string :=
  "Error: The widget does not have access to the data.".

(** The matching tolerance on [Total_Miles]: the literal [0.01], that is,
    the double nearest to one hundredth. *)
Definition tolerance : num := round64 0.01.

(** [Abs(f["Total_Miles"] - targetMiles) < 0.01] *)
Definition withinTolerance (fMiles targetMiles : Value) : bool :=
  nlt (nabs (fsub (Number fMiles) (Number targetMiles))) tolerance.

(** The fingerprint loop of the single-field scripts (AADT,
    Projects_Construction, Number_Of_Fatal_Crashes,
    Project_Cost_Construction); they differ in the field name only:

      for (var f in allFeats) {
        if (Abs(f["Total_Miles"] - targetMiles) < 0.01) {
          value = f[fieldName]; break; } }                              *)
Fixpoint scanByMiles (fieldName : string) (targetMiles : Value)
    (allFeats : list (gmap string Value)) (value : Value) : result Value :=
  match allFeats with
  | [] => Ok value
  | f :: rest =>
      fMiles ← bracket f "Total_Miles";
      if withinTolerance fMiles targetMiles
      then bracket f fieldName
      else scanByMiles fieldName targetMiles rest value
  end.

(** Direct lookup, then the fingerprint fallback. *)
Definition resolveField (fieldName : string) (feature : gmap string Value)
    (allFeats : list (gmap string Value)) : result Value :=
  value ← bracket feature fieldName;
  if IsEmpty value then
    targetMiles ← bracket feature "Total_Miles";
    if negb (IsEmpty targetMiles)
    then scanByMiles fieldName targetMiles allFeats value
    else Ok value
  else Ok value.

(** The frame of every script; the scripts differ in the two cases, in the
    error text and in the text size:

      var selectionSource = $dataSources[selectionID];
      var displayText = "";
      if (HasKey($dataSources, fullLayerID)) {
        var fullSource = $dataSources[fullLayerID];
        var selectedFeatures = selectionSource.selectedFeatures;
        if (Count(selectedFeatures) > 0) { CASE A, on First(selectedFeatures) }
        else { CASE B, on fullSource.layer }
      } else { displayText = errorText; }
      return { value: displayText, text: { size: ..., ... } };

    [First] of a non-empty set is its first feature, so the [None] branch
    below is never taken. *)
Definition frame (size : Z) (errorText : string)
    (caseA : gmap string Value → list (gmap string Value)
             → list (gmap string Value) → result string)
    (caseB : list (gmap string Value) → result string)
    (dataSources : gmap string DataSource) : result Widget.Output :=
  selectionSource ← bracket dataSources selectionID;
  displayText ←
    (if HasKey dataSources fullLayerID then
       fullSource ← bracket dataSources fullLayerID;
       let selectedFeatures := selectedFeatures selectionSource in
       if (0 <? Count selectedFeatures)%nat then
         match First selectedFeatures with
         | Some feature => caseA feature selectedFeatures (layer fullSource)
         | None => Ok ""
         end
       else caseB (layer fullSource)
     else Ok errorText);
  Ok (styled size displayText).

(** ** AADT.js, first expression: AADT *)
Module AADT.

(** Lines 60-68: the two running sums. *)
Fixpoint accumulate (allFeatures : list (gmap string Value))
    (sumWeightedAADT sumTotalMiles : num) : result (num * num) :=
  match allFeatures with
  | [] => Ok (sumWeightedAADT, sumTotalMiles)
  | feature :: rest =>
      aadt ← bracket feature "AADT";
      totalMiles ← bracket feature "Total_Miles";
      if negb (IsEmpty aadt) && negb (IsEmpty totalMiles)
         && ngt (Number aadt) (Fin 0) && ngt (Number totalMiles) (Fin 0)
      then accumulate rest
             (fadd sumWeightedAADT (fmul (Number aadt) (Number totalMiles)))
             (fadd sumTotalMiles (Number totalMiles))
      else accumulate rest sumWeightedAADT sumTotalMiles
  end.

(** Lines 48-52. *)
Definition display (valAADT : Value) : string :=
  if negb (IsEmpty valAADT) && ngt (Number valAADT) (Fin 0)
  then Text valAADT "#,###"
  else "0".

Definition caseA (selFeature : gmap string Value)
    (selectedFeatures allFeats : list (gmap string Value)) : result string :=
  valAADT ← resolveField "AADT" selFeature allFeats;
  Ok (display valAADT).

Definition caseB (allFeatures : list (gmap string Value)) : result string :=
  '(sumWeightedAADT, sumTotalMiles) ← accumulate allFeatures (Fin 0) (Fin 0);
  if ngt sumTotalMiles (Fin 0) then
    let weightedAvgAADT := fdiv sumWeightedAADT sumTotalMiles in
    Ok (Text (VNum (Round weightedAvgAADT 0)) "#,###")
  else Ok "0".

Definition script : gmap string DataSource → result Widget.Output :=
  frame 20 accessError caseA caseB.

End AADT.

(** ** AADT.js, second expression: Projects_Construction *)
Module ProjectsConstruction.

Definition caseA (feature : gmap string Value)
    (selectedFeatures allFeats : list (gmap string Value)) : result string :=
  value ← resolveField "Projects_Construction" feature allFeats;
  Ok (if negb (IsEmpty value) then Text value "#,###" else "0").

Definition caseB (allFeatures : list (gmap string Value)) : result string :=
  totalValue ← Sum allFeatures "Projects_Construction";
  Ok (Text (VNum totalValue) "#,###").

Definition script : gmap string DataSource → result Widget.Output :=
  frame 20 accessError caseA caseB.

End ProjectsConstruction.

(** ** Number_Of_Fatal_Crashes.js *)
Module FatalCrashes.

Definition caseA (feature : gmap string Value)
    (selectedFeatures allFeats : list (gmap string Value)) : result string :=
  fatalCrashes ← resolveField "Number_Of_Fatal_Crashes" feature allFeats;
  Ok (if negb (IsEmpty fatalCrashes) then Text fatalCrashes "#,###" else "0").

Definition caseB (allFeatures : list (gmap string Value)) : result string :=
  totalFatalCrashes ← Sum allFeatures "Number_Of_Fatal_Crashes";
  Ok (Text (VNum totalFatalCrashes) "#,###").

Definition script : gmap string DataSource → result Widget.Output :=
  frame 20 accessError caseA caseB.

End FatalCrashes.

(** ** total_miles.js *)
Module TotalMiles.

Definition caseA (feature : gmap string Value)
    (selectedFeatures allFeats : list (gmap string Value)) : result string :=
  miles ← bracket feature "Total_Miles";
  Ok (Text miles "#,###.0" ++ " mi").

Definition caseB (allFeatures : list (gmap string Value)) : result string :=
  totalMiles ← Sum allFeatures "Total_Miles";
  Ok (Text (VNum totalMiles) "#,###.0" ++ " mi").

Definition script : gmap string DataSource → result Widget.Output :=
  frame 20 accessError caseA caseB.

End TotalMiles.

(** ** corridor_title.js *)
Module CorridorTitle.

Definition title : string :=
  "Fort Worth District Corridors with Greatest Needs".

Definition caseA (feature : gmap string Value)
    (selectedFeatures allFeats : list (gmap string Value)) : result string :=
  corridor ← bracket feature "Corridor";
  Ok (toText corridor ++ " Corridor Profile").

(** The distinct count is computed and then not used: the line that
    displayed it is commented out in the source. *)
Definition caseB (allFeatures : list (gmap string Value)) : result string :=
  uniqueCorridors ← Distinct allFeatures "Corridor";
  let totalCount := Count uniqueCorridors in
  Ok title.

Definition script : gmap string DataSource → result Widget.Output :=
  frame 22 accessError caseA caseB.

End CorridorTitle.

(** The helper of the two later scripts: a field access that cannot raise.

      function GetVal(feat, key) {
        if (HasKey(feat, key)) { return feat[key]; }
        return null; }                                                  *)
Definition GetVal (feat : gmap string Value) (key : string) : result Value :=
  if HasKey feat key then bracket feat key else Ok VNull.

(** ** AADT.js, third expression: Truck AADT / Truck % / Tons *)
Module TruckStats.

(** Lines 187-220.  The scaled value goes straight into [Round]: the
    quotient by the power of ten is taken as it is, before any rounding to
    a double ([ndiv]); the product with the sign, 1 or -1, is exact
    ([nmul]). *)
Definition FormatCompact (n : Value) : string :=
  if IsEmpty n || IsNan n then "0"
  else
    let val := Number n in
    let absVal := nabs val in
    let sign := if nlt val (Fin 0) then Fin (-1) else Fin 1 in
    let '(num, suffix) :=
      if nge absVal (Fin 1000000000) then (ndiv absVal (Fin 1000000000), "B")
      else if nge absVal (Fin 1000000) then (ndiv absVal (Fin 1000000), "M")
      else if nge absVal (Fin 1000) then (ndiv absVal (Fin 1000), "K")
      else (absVal, "") in
    let num := nmul num sign in
    let rounded := Round num 1 in
    Text (VNum rounded) "#.################" ++ suffix.

(** The three values the script carries: Truck_AADT, AADT, Tons. *)
Record Vals : Type := {
  valTruckAADT : Value;
  valTotalAADT : Value;
  valTons : Value
}.

(** Lines 247-255. *)
Fixpoint scan (targetMiles : Value) (allFeats : list (gmap string Value))
    (vals : Vals) : result Vals :=
  match allFeats with
  | [] => Ok vals
  | f :: rest =>
      fMiles ← GetVal f "Total_Miles";
      if negb (IsEmpty fMiles)
         && nlt (nabs (fsub (Number fMiles) (Number targetMiles))) tolerance
      then
        truck ← GetVal f "Truck_AADT";
        total ← GetVal f "AADT";
        tons ← GetVal f "Tons";
        Ok {| valTruckAADT := truck; valTotalAADT := total; valTons := tons |}
      else scan targetMiles rest vals
  end.

(** Lines 235-257: the values after the direct reads and the fallback. *)
Definition resolve (selFeature : gmap string Value)
    (allFeats : list (gmap string Value)) : result Vals :=
  truck ← GetVal selFeature "Truck_AADT";
  total ← GetVal selFeature "AADT";
  tons ← GetVal selFeature "Tons";
  let vals := {| valTruckAADT := truck; valTotalAADT := total; valTons := tons |} in
  if IsEmpty truck || IsEmpty tons then
    targetMiles ← GetVal selFeature "Total_Miles";
    if negb (IsEmpty targetMiles) then scan targetMiles allFeats vals
    else Ok vals
  else Ok vals.

(** The four running sums of lines 273-290. *)
Record Sums : Type := {
  sumWeightedTruckAADT : num;
  sumWeightedTotalAADT : num;
  sumWeightedTons : num;
  sumTotalMiles : num
}.

Definition zeroSums : Sums :=
  {| sumWeightedTruckAADT := Fin 0; sumWeightedTotalAADT := Fin 0;
     sumWeightedTons := Fin 0; sumTotalMiles := Fin 0 |}.

Fixpoint accumulate (allFeatures : list (gmap string Value)) (s : Sums)
    : result Sums :=
  match allFeatures with
  | [] => Ok s
  | feature :: rest =>
      t_aadt ← GetVal feature "Truck_AADT";
      aadt ← GetVal feature "AADT";
      tons ← GetVal feature "Tons";
      totalMiles ← GetVal feature "Total_Miles";
      let n_t_aadt := Number t_aadt in
      let n_aadt := Number aadt in
      let n_tons := Number tons in
      let n_miles := Number totalMiles in
      if ngt n_t_aadt (Fin 0) && ngt n_miles (Fin 0) then
        accumulate rest
          {| sumWeightedTruckAADT := fadd (sumWeightedTruckAADT s) (fmul n_t_aadt n_miles);
             sumWeightedTotalAADT := fadd (sumWeightedTotalAADT s) (fmul n_aadt n_miles);
             sumWeightedTons := fadd (sumWeightedTons s) (fmul n_tons n_miles);
             sumTotalMiles := fadd (sumTotalMiles s) n_miles |}
      else accumulate rest s
  end.

(** Lines 266-297: the values and [hasData] when nothing is selected. *)
Definition averages (allFeatures : list (gmap string Value))
    : result (Vals * bool) :=
  s ← accumulate allFeatures zeroSums;
  if ngt (sumTotalMiles s) (Fin 0) then
    Ok ({| valTruckAADT := VNum (fdiv (sumWeightedTruckAADT s) (sumTotalMiles s));
           valTotalAADT := VNum (fdiv (sumWeightedTotalAADT s) (sumTotalMiles s));
           valTons := VNum (fdiv (sumWeightedTons s) (sumTotalMiles s)) |}, true)
  else
    Ok ({| valTruckAADT := VNum (Fin 0); valTotalAADT := VNum (Fin 0);
           valTons := VNum (Fin 0) |}, false).

(** Lines 300-320. *)
Definition format (vals : Vals) (hasData : bool) : string :=
  if hasData then
    let numTruck := Number (valTruckAADT vals) in
    let numTotal := Number (valTotalAADT vals) in
    let numTons := Number (valTons vals) in
    let textTruckAADT := Text (VNum (Round numTruck 0)) "#,###" in
    let textPercent :=
      if ngt numTotal (Fin 0)
      then Text (VNum (fdiv numTruck numTotal)) "#%"
      else "0%" in
    let textTons := FormatCompact (VNum numTons) in
    textTruckAADT ++ " / " ++ textPercent ++ " / " ++ textTons ++ " Tons"
  else "0 / 0% / 0".

Definition caseA (selFeature : gmap string Value)
    (selectedFeatures allFeats : list (gmap string Value)) : result string :=
  vals ← resolve selFeature allFeats;
  let hasData := negb (IsEmpty (valTruckAADT vals)) in
  Ok (format vals hasData).

Definition caseB (allFeatures : list (gmap string Value)) : result string :=
  '(vals, hasData) ← averages allFeatures;
  Ok (format vals hasData).

Definition script : gmap string DataSource → result Widget.Output :=
  frame 20 "Error: Data Source Not Found" caseA caseB.

End TruckStats.

(** ** 4D+_miles.js

    [Log] and [NormalizeKey] are declared in the source and never called. *)
Module FourDPlusMiles.

Definition NormalizeKey (value : Value) : Value :=
  if IsEmpty value then VNull else VText (Lower (Trim (toText value))).

(** Strategy A, lines 60-69: the state is [(val, foundMatch)]. *)
Fixpoint scanHWY (targetKey : string) (allFeats : list (gmap string Value))
    (st : Value * bool) : result (Value * bool) :=
  match allFeats with
  | [] => Ok st
  | f :: rest =>
      fHWY ← GetVal f "HWY";
      if negb (IsEmpty fHWY) && String.eqb (Lower (Trim (toText fHWY))) targetKey
      then val ← GetVal f "four_D_plus_miles"; Ok (val, true)
      else scanHWY targetKey rest st
  end.

(** Strategy B, lines 76-83. *)
Fixpoint scanMiles (targetMiles : Value) (allFeats : list (gmap string Value))
    (st : Value * bool) : result (Value * bool) :=
  match allFeats with
  | [] => Ok st
  | f :: rest =>
      fMiles ← GetVal f "Total_Miles";
      if negb (IsEmpty fMiles)
         && nlt (nabs (fsub (Number fMiles) (Number targetMiles))) tolerance
      then val ← GetVal f "four_D_plus_miles"; Ok (val, true)
      else scanMiles targetMiles rest st
  end.

(** Lines 49-86: the value of one selected feature. *)
Definition resolve (selFeature : gmap string Value)
    (allFeats : list (gmap string Value)) : result Value :=
  val ← GetVal selFeature "four_D_plus_miles";
  if IsEmpty val then
    targetHWY ← GetVal selFeature "HWY";
    st ← (if negb (IsEmpty targetHWY)
          then scanHWY (Lower (Trim (toText targetHWY))) allFeats (val, false)
          else Ok (val, false));
    if negb (snd st) then
      targetMiles ← GetVal selFeature "Total_Miles";
      if negb (IsEmpty targetMiles)
      then st' ← scanMiles targetMiles allFeats st; Ok (fst st')
      else Ok (fst st)
    else Ok (fst st)
  else Ok val.

(** Lines 47-92: the loop over all selected features. *)
Fixpoint total (selectedFeatures allFeats : list (gmap string Value))
    (miles4Dplus : num) : result num :=
  match selectedFeatures with
  | [] => Ok miles4Dplus
  | selFeature :: rest =>
      val ← resolve selFeature allFeats;
      total rest allFeats
        (if negb (IsEmpty val) then fadd miles4Dplus (Number val)
         else miles4Dplus)
  end.

Definition caseA (first : gmap string Value)
    (selectedFeatures allFeats : list (gmap string Value)) : result string :=
  miles4Dplus ← total selectedFeatures allFeats (Fin 0);
  Ok (Text (VNum miles4Dplus) "#,###.0" ++ " mi").

Definition caseB (allFeatures : list (gmap string Value)) : result string :=
  total4DplusMiles ← Sum allFeatures "four_D_plus_miles";
  Ok (Text (VNum total4DplusMiles) "#,###.0" ++ " mi").

Definition script : gmap string DataSource → result Widget.Output :=
  frame 20 accessError caseA caseB.

End FourDPlusMiles.

(** ** The Project_Cost_Construction expression (unnamed source file) *)
Module ProjectCost.

(** Lines 14-27; the quotients as in [TruckStats.FormatCompact]. *)
Definition formatCompact (n : Value) : string :=
  if IsEmpty n then "$0"
  else
    let abs_n := nabs (Number n) in
    if nlt abs_n (Fin 1000) then
      "$" ++ toText (VNum (Round (Number n) 1))
    else if nlt abs_n (Fin 1000000) then
      "$" ++ toText (VNum (Round (ndiv (Number n) (Fin 1000)) 1)) ++ "K"
    else if nlt abs_n (Fin 1000000000) then
      "$" ++ toText (VNum (Round (ndiv (Number n) (Fin 1000000)) 1)) ++ "M"
    else
      "$" ++ toText (VNum (Round (ndiv (Number n) (Fin 1000000000)) 1)) ++ "B".

Definition caseA (feature : gmap string Value)
    (selectedFeatures allFeats : list (gmap string Value)) : result string :=
  value ← resolveField "Project_Cost_Construction" feature allFeats;
  Ok (if negb (IsEmpty value) then formatCompact value else "$0").

Definition caseB (allFeatures : list (gmap string Value)) : result string :=
  totalValue ← Sum allFeatures "Project_Cost_Construction";
  Ok (formatCompact (VNum totalValue)).

Definition script : gmap string DataSource → result Widget.Output :=
  frame 20 accessError caseA caseB.

End ProjectCost.

(** * Definitions used by the statements *)

(** The situation both keys are present in. *)
Definition context (dataSources : gmap string DataSource)
    (selected reference : list (gmap string Value)) : Prop :=
  ∃ selectionSource fullSource,
    dataSources !! selectionID = Some selectionSource
    ∧ dataSources !! fullLayerID = Some fullSource
    ∧ selectedFeatures selectionSource = selected
    ∧ layer fullSource = reference.

(** The fingerprint of a reference feature, as the loop reads it. *)
Definition milesOf (f : gmap string Value) : Value :=
  default VNull (f !! "Total_Miles").

Definition hasField (fieldName : string) (f : gmap string Value) : Prop :=
  is_Some (f !! fieldName).


(** ** Concrete inputs *)

Definition feature (fields : list (string * Value)) : gmap string Value :=
  list_to_map fields.

Definition number (q : Q) : Value := VNum (Fin q).

(** The number a decimal literal stands for: the double nearest to it. *)
Definition double (q : Q) : Value := VNum (round64 q).

(** Both data sources present: the selection view with its selected
    features, and the full layer. *)
Definition dataSourcesOf (selected reference : list (gmap string Value))
    : gmap string DataSource :=
  <[selectionID := {| layer := reference; selectedFeatures := selected |}]>
    (<[fullLayerID := {| layer := reference; selectedFeatures := [] |}]> ∅).

(** Only the selection view present: the full-layer key is absent. *)
Definition selectionOnly (selected : list (gmap string Value))
    : gmap string DataSource :=
  <[selectionID := {| layer := []; selectedFeatures := selected |}]> ∅.

Module Sample.

(** A selected corridor without AADT, and three reference corridors: the
    second is within a hundredth of a mile, the third matches exactly. *)
Definition selectedNoAADT : gmap string Value :=
  feature [("AADT", VNull); ("Total_Miles", number 12.5)].

Definition refFar : gmap string Value :=
  feature [("AADT", number 900); ("Total_Miles", number 30)].
Definition refNear : gmap string Value :=
  feature [("AADT", number 1200); ("Total_Miles", double 12.505)].
Definition refExact : gmap string Value :=
  feature [("AADT", number 1500); ("Total_Miles", number 12.5)].

(** A selected corridor with truck counts and without tonnage, and the
    reference corridor of the same length. *)
Definition selectedNoTons : gmap string Value :=
  feature [("Truck_AADT", number 100); ("AADT", number 1000);
           ("Tons", VNull); ("Total_Miles", number 5)].
Definition refTruck : gmap string Value :=
  feature [("Truck_AADT", number 200); ("AADT", number 2000);
           ("Tons", number 50); ("Total_Miles", number 5)].

End Sample.

(** ** The selected case *)

(** The scripts whose selected case reads the first selected feature only. *)
Definition firstOnlyScripts
    : list (gmap string DataSource → result Widget.Output) :=
  [AADT.script; ProjectsConstruction.script; FatalCrashes.script;
   ProjectCost.script; TruckStats.script; TotalMiles.script;
   CorridorTitle.script].

(** The value the 4D+ miles script resolves for one selected feature
    (the resolution uses [GetVal] throughout and cannot raise). *)
Definition resolved4D (allFeats : list (gmap string Value))
    (selFeature : gmap string Value) : Value :=
  match FourDPlusMiles.resolve selFeature allFeats with
  | Ok v => v
  | Raise _ => VNull
  end.

(** Adding a resolved value to the running total; empty values are
    skipped. *)
Definition addResolved (miles4Dplus : num) (val : Value) : num :=
  if negb (IsEmpty val) then fadd miles4Dplus (Number val) else miles4Dplus.

Module Sample4D.
Definition seg1 : gmap string Value :=
  feature [("four_D_plus_miles", number 1)].
Definition seg2 : gmap string Value :=
  feature [("four_D_plus_miles", number 2)].
End Sample4D.

(** ** Aggregation, in the specification's words *)

(** A field as the aggregations read it: a missing field counts as null. *)
Definition fieldOf (fieldName : string) (f : gmap string Value) : Value :=
  default VNull (f !! fieldName).

(** A running sum of [g], in the order of the features and in the
    arithmetic of the scripts. *)
Definition sumOver (g : gmap string Value → num)
    (features : list (gmap string Value)) : num :=
  fold_left (λ acc f, fadd acc (g f)) features (Fin 0).

(** "sum [fieldName] over all features, treating empty as 0" *)
Definition sumField (fieldName : string) (features : list (gmap string Value))
    : num :=
  sumOver (λ f, Number (fieldOf fieldName f)) features.

Definition isZero (n : num) : bool :=
  match n with
  | Fin q => Qeq_bool q 0
  | _ => false
  end.

(** sum(value × weight) / sum(weight) over the features that [counts]
    selects; 0 if the total weight is 0. *)
Definition weightedAverageOver (counts : gmap string Value → bool)
    (valueField weightField : string) (features : list (gmap string Value))
    : num :=
  let counted := List.filter counts features in
  let totalWeight := sumOver (λ f, Number (fieldOf weightField f)) counted in
  if isZero totalWeight then Fin 0
  else
    fdiv (sumOver (λ f, fmul (Number (fieldOf valueField f))
                             (Number (fieldOf weightField f))) counted)
         totalWeight.

(** "present and > 0" *)
Definition presentPositive (v : Value) : bool :=
  negb (IsEmpty v) && ngt (Number v) (Fin 0).

(** "... over features where both value and weight are present and > 0" *)
Definition weightedAverage_spec (valueField weightField : string)
    : list (gmap string Value) → num :=
  weightedAverageOver
    (λ f, presentPositive (fieldOf valueField f)
          && presentPositive (fieldOf weightField f))
    valueField weightField.

(** The features the AADT script counts. *)
Definition AADT_counts (f : gmap string Value) : bool :=
  presentPositive (fieldOf "AADT" f)
  && presentPositive (fieldOf "Total_Miles" f).

(** The features the truck-statistics script counts: its guard reads
    [Truck_AADT] and [Total_Miles] only. *)
Definition truckCounted (f : gmap string Value) : bool :=
  ngt (Number (fieldOf "Truck_AADT" f)) (Fin 0)
  && ngt (Number (fieldOf "Total_Miles" f)) (Fin 0).

(** Equality of numbers up to the representation of the rational. *)
Definition numEq (a b : num) : bool :=
  match a, b with
  | Fin x, Fin y => Qeq_bool x y
  | NaN, NaN => true
  | Inf s, Inf t => Bool.eqb s t
  | _, _ => false
  end.

(** Zero, positive or plus infinity: not NaN and not negative. *)
Definition nonneg (n : num) : Prop :=
  match n with
  | Fin q => (0 <= q)%Q
  | Inf s => s = false
  | NaN => False
  end.

Module SampleTruck.
(** A segment without trucks and a segment with trucks, five miles each. *)
Definition noTrucks : gmap string Value :=
  feature [("Truck_AADT", number 0); ("AADT", number 1000);
           ("Tons", number 10); ("Total_Miles", number 5)].
Definition trucks : gmap string Value :=
  feature [("Truck_AADT", number 100); ("AADT", number 2000);
           ("Tons", number 20); ("Total_Miles", number 5)].
End SampleTruck.

(** The average AADT the truck-statistics script computes for an empty
    selection. *)
Definition truckAverageAADT (allFeatures : list (gmap string Value)) : num :=
  match TruckStats.averages allFeatures with
  | Ok (vals, _) => Number (TruckStats.valTotalAADT vals)
  | Raise _ => NaN
  end.

Module SampleCorridor.
Definition north : gmap string Value :=
  feature [("Corridor", VText "I-35W"); ("Total_Miles", number 12.5)].
Definition west : gmap string Value :=
  feature [("Corridor", VText "US-287"); ("Total_Miles", number 30)].
End SampleCorridor.

(** ** The text of a number rounded to one decimal place *)

(** For a number of tenths [z]: the sign, the decimal numeral of the
    integer part, and one fractional digit unless that digit is 0. *)
Definition tenthsText (z : Z) : string :=
  (if (z <? 0)%Z then "-" else "")
  ++ natDigits (Z.abs z / 10)
  ++ (if (Z.abs z mod 10 =? 0)%Z then ""
      else "." ++ natDigits (Z.abs z mod 10)).

(** ** The full-layer identifier, in the specification's words *)

(** "stripping a fixed suffix": the text without its trailing [suffix],
    unchanged when it does not end with it. *)
Fixpoint stripSuffix (suffix s : string) : string :=
  if String.eqb s suffix then ""
  else
    match s with
    | "" => ""
    | String c r => String c (stripSuffix suffix r)
    end.

(** [searchText] occurs in [s] at a place other than the very end. *)
Fixpoint occursBeforeEnd (searchText s : string) : bool :=
  match s with
  | "" => false
  | String _ r =>
      (String.prefix searchText s && negb (String.eqb s searchText))
      || occursBeforeEnd searchText r
  end.

(** ** Missing fields *)

Module SampleMissing.
(** A selected feature of a selection view whose schema has the length
    only. *)
Definition milesOnly : gmap string Value :=
  feature [("Total_Miles", number 5)].
End SampleMissing.

(** ** All scripts, with the text size each one returns *)

Definition scriptsWithSize
    : list ((gmap string DataSource → result Widget.Output) * Z) :=
  [(AADT.script, 20%Z); (ProjectsConstruction.script, 20%Z);
   (TruckStats.script, 20%Z); (CorridorTitle.script, 22%Z);
   (FatalCrashes.script, 20%Z); (TotalMiles.script, 20%Z);
   (FourDPlusMiles.script, 20%Z); (ProjectCost.script, 20%Z)].


(** * Definitions used by the further properties *)

(** [Lower(Trim(Text(v)))]: the key by which the 4D+ miles script compares
    two [HWY] values. *)
Definition hwyKey (v : Value) : string := Lower (Trim (toText v)).

(** The test of Strategy A on a reference feature (lines 61-63 of
    4D+_miles.js): its [HWY] is not empty and has the key of the target. *)
Definition sameHWY (targetHWY : Value) (f : gmap string Value) : bool :=
  negb (IsEmpty (fieldOf "HWY" f))
  && String.eqb (hwyKey (fieldOf "HWY" f)) (hwyKey targetHWY).

(** The test of the guarded fingerprint loops (truck statistics, and
    Strategy B of 4D+ miles): [Total_Miles] is not empty and within the
    tolerance. *)
Definition guardedClose (targetMiles : Value) (f : gmap string Value) : bool :=
  negb (IsEmpty (fieldOf "Total_Miles" f))
  && withinTolerance (fieldOf "Total_Miles" f) targetMiles.

(** The three values of a feature as the truck-statistics script reads
    them through [GetVal]. *)
Definition valsOf (f : gmap string Value) : TruckStats.Vals :=
  {| TruckStats.valTruckAADT := fieldOf "Truck_AADT" f;
     TruckStats.valTotalAADT := fieldOf "AADT" f;
     TruckStats.valTons := fieldOf "Tons" f |}.

Module SampleHWY.
(** A selected segment without 4D+ miles, and two reference segments: the
    first has the same length, the second the same highway, written with
    other case and padding. *)
Definition selected : gmap string Value :=
  feature [("HWY", VText "I-35W"); ("Total_Miles", number 5)].
Definition sameLength : gmap string Value :=
  feature [("HWY", VText "US-287"); ("Total_Miles", number 5);
           ("four_D_plus_miles", number 10)].
Definition sameHighway : gmap string Value :=
  feature [("HWY", VText " i-35w "); ("Total_Miles", number 7);
           ("four_D_plus_miles", number 20)].
(** A selected segment that names no highway. *)
Definition unnamed : gmap string Value :=
  feature [("Total_Miles", number 5)].
(** A reference segment with no length recorded. *)
Definition noLength : gmap string Value :=
  feature [("HWY", VText "SH-121"); ("Total_Miles", VNull);
           ("four_D_plus_miles", number 30)].
End SampleHWY.

Module SampleEmpty.
(** A selected corridor with neither AADT nor length, and a reference
    feature that has no fields at all. *)
Definition blank : gmap string Value :=
  feature [("AADT", VNull); ("Total_Miles", VNull)].
Definition noFields : gmap string Value := feature [].
End SampleEmpty.

(** A selected feature that the 4D+ miles script resolves to a non-empty
    value over the given reference layer. *)
Definition resolvable4D (allFeats : list (gmap string Value))
    (selFeature : gmap string Value) : bool :=
  negb (IsEmpty (resolved4D allFeats selFeature)).

(** * Properties *)

(** ** The error monad and the frame *)

Lemma bracket_Some {V} (d : gmap string V) key v :
  d !! key = Some v → bracket d key = Ok v.
Proof. unfold bracket. by intros ->. Qed.

Lemma bracket_None {V} (d : gmap string V) key :
  d !! key = None → bracket d key = Raise (KeyNotFound key).
Proof. unfold bracket. by intros ->. Qed.

Lemma HasKey_Some {V} (d : gmap string V) key v :
  d !! key = Some v → HasKey d key = true.
Proof. intros H. unfold HasKey. apply bool_decide_eq_true. by exists v. Qed.

Lemma HasKey_None {V} (d : gmap string V) key :
  d !! key = None → HasKey d key = false.
Proof.
  intros H. unfold HasKey. apply bool_decide_eq_false.
  rewrite H. by intros [? ?].
Qed.

(** [GetVal] never raises: a missing field reads as null. *)
Lemma GetVal_total (feat : gmap string Value) key :
  GetVal feat key = Ok (default VNull (feat !! key)).
Proof.
  unfold GetVal. destruct (feat !! key) as [v|] eqn:E.
  - by rewrite (HasKey_Some _ _ _ E), (bracket_Some _ _ _ E).
  - by rewrite (HasKey_None _ _ E).
Qed.


Section Frame.
Variables (size : Z) (errorText : string).
Variable caseA : gmap string Value → list (gmap string Value)
                 → list (gmap string Value) → result string.
Variable caseB : list (gmap string Value) → result string.

Lemma frame_unavailable dataSources selectionSource :
  dataSources !! selectionID = Some selectionSource →
  dataSources !! fullLayerID = None →
  frame size errorText caseA caseB dataSources = Ok (styled size errorText).
Proof.
  intros Hs Hf. unfold frame.
  by rewrite (bracket_Some _ _ _ Hs), (HasKey_None _ _ Hf).
Qed.

Lemma frame_selected dataSources feature rest reference :
  context dataSources (feature :: rest) reference →
  frame size errorText caseA caseB dataSources
  = (displayText ← caseA feature (feature :: rest) reference;
     Ok (styled size displayText)).
Proof.
  intros (s & f & Hs & Hf & Hsel & Hlay). unfold frame.
  rewrite (bracket_Some _ _ _ Hs), (HasKey_Some _ _ _ Hf),
    (bracket_Some _ _ _ Hf).
  simpl. by rewrite Hsel, Hlay.
Qed.

Lemma frame_unselected dataSources reference :
  context dataSources [] reference →
  frame size errorText caseA caseB dataSources
  = (displayText ← caseB reference; Ok (styled size displayText)).
Proof.
  intros (s & f & Hs & Hf & Hsel & Hlay). unfold frame.
  rewrite (bracket_Some _ _ _ Hs), (HasKey_Some _ _ _ Hf),
    (bracket_Some _ _ _ Hf).
  simpl. by rewrite Hsel, Hlay.
Qed.

Lemma frame_text dataSources out :
  frame size errorText caseA caseB dataSources = Ok out →
  Widget.text out = Widget.text (styled size "").
Proof.
  unfold frame. intros H.
  destruct (bracket dataSources selectionID); [simpl in H | discriminate].
  match type of H with
  | (mbind _ ?m) = _ => destruct m; [simpl in H | discriminate]
  end.
  by inversion H.
Qed.
End Frame.

(** ** The fingerprint fallback *)

Lemma Qltb_lt (x y : Q) : Qltb x y = true ↔ (x < y)%Q.
Proof.
  unfold Qltb. rewrite negb_true_iff. split.
  - intros H. apply Qnot_le_lt. intros Hle.
    apply Qle_bool_iff in Hle. congruence.
  - intros H. destruct (Qle_bool y x) eqn:E; [|done].
    apply Qle_bool_iff in E. by apply Qlt_not_le in H.
Qed.

Lemma Qltb_ge (x y : Q) : Qltb x y = false ↔ (y <= x)%Q.
Proof.
  unfold Qltb. rewrite negb_false_iff. apply Qle_bool_iff.
Qed.

Lemma Qle_bool_false (x y : Q) : (y < x)%Q → Qle_bool x y = false.
Proof.
  intros H. destruct (Qle_bool x y) eqn:E; [|done].
  apply Qle_bool_iff in E. by apply Qlt_not_le in H.
Qed.

Lemma Qle_bool_true (x y : Q) : (x <= y)%Q → Qle_bool x y = true.
Proof. apply Qle_bool_iff. Qed.

Lemma Qltb_true (x y : Q) : (x < y)%Q → Qltb x y = true.
Proof. apply Qltb_lt. Qed.

Lemma Qltb_false (x y : Q) : (y <= x)%Q → Qltb x y = false.
Proof. apply Qltb_ge. Qed.

(** On numbers the test of the loop is the one of the code: the difference
    is rounded to a double, and its magnitude is compared with the double
    nearest to one hundredth. *)
Lemma withinTolerance_numbers (x y : Q) :
  withinTolerance (VNum (Fin x)) (VNum (Fin y))
  = nlt (nabs (round64 (x - y))) (round64 0.01).
Proof. reflexivity. Qed.

(** The test on some doubles.  [12.51 - 12.5] is a little less than the
    double [0.01]; the second difference is less than one hundredth before
    rounding and exactly the double [0.01] after it. *)
Lemma withinTolerance_examples :
  withinTolerance (double 12.51) (double 12.5) = true
  ∧ withinTolerance (double 12.52) (double 12.5) = false
  ∧ withinTolerance (double 0.010869745807130548)
      (double 0.0008697458071305486) = false
  ∧ withinTolerance (double 1e308) (double (-1e308)) = false
  ∧ withinTolerance (VText "12.505") (double 12.5) = true
  ∧ withinTolerance VNull (double 0.005) = true.
Proof. repeat split; vm_compute; reflexivity. Qed.


Lemma scanByMiles_no_match fieldName targetMiles allFeats value :
  Forall (hasField "Total_Miles") allFeats →
  Forall (λ g, withinTolerance (milesOf g) targetMiles = false) allFeats →
  scanByMiles fieldName targetMiles allFeats value = Ok value.
Proof.
  induction allFeats as [|g rest IH]; intros Hf Hn; [done|].
  inversion Hf as [|? ? [m Hm] Hf']; subst.
  inversion Hn as [|? ? Hg Hn']; subst.
  simpl. rewrite (bracket_Some _ _ _ Hm). simpl.
  unfold milesOf in Hg. rewrite Hm in Hg. simpl in Hg. rewrite Hg.
  by apply IH.
Qed.

Lemma scanByMiles_first_match fieldName targetMiles
    (pre : list (gmap string Value)) f post value v :
  Forall (hasField "Total_Miles") (pre ++ f :: post)%list →
  Forall (λ g, withinTolerance (milesOf g) targetMiles = false) pre →
  withinTolerance (milesOf f) targetMiles = true →
  f !! fieldName = Some v →
  scanByMiles fieldName targetMiles (pre ++ f :: post)%list value = Ok v.
Proof.
  induction pre as [|g pre IH]; intros Hf Hn Hw Hv.
  - simpl in *. inversion Hf as [|? ? [m Hm] _]; subst.
    rewrite (bracket_Some _ _ _ Hm). simpl.
    unfold milesOf in Hw. rewrite Hm in Hw. simpl in Hw. rewrite Hw.
    by apply bracket_Some.
  - simpl in *. inversion Hf as [|? ? [m Hm] Hf']; subst.
    inversion Hn as [|? ? Hg Hn']; subst.
    rewrite (bracket_Some _ _ _ Hm). simpl.
    unfold milesOf in Hg. rewrite Hm in Hg. simpl in Hg. rewrite Hg.
    by apply IH.
Qed.

Lemma resolveField_fallback fieldName feature allFeats value targetMiles :
  feature !! fieldName = Some value → IsEmpty value = true →
  feature !! "Total_Miles" = Some targetMiles → IsEmpty targetMiles = false →
  resolveField fieldName feature allFeats
  = scanByMiles fieldName targetMiles allFeats value.
Proof.
  intros Hv He Hm Hne. unfold resolveField.
  rewrite (bracket_Some _ _ _ Hv). simpl. rewrite He.
  rewrite (bracket_Some _ _ _ Hm). simpl. by rewrite Hne.
Qed.

Lemma resolveField_direct fieldName feature allFeats value :
  feature !! fieldName = Some value → IsEmpty value = false →
  resolveField fieldName feature allFeats = Ok value.
Proof.
  intros Hv He. unfold resolveField.
  rewrite (bracket_Some _ _ _ Hv). simpl. by rewrite He.
Qed.

(** C1.  In the single-field scripts (AADT, Projects_Construction,
    Number_Of_Fatal_Crashes, Project_Cost_Construction), take a selected
    feature whose target field is empty and whose [Total_Miles] is not, and
    reference features that carry [Total_Miles].  The fallback scans the
    reference features in layer order and returns the target field of the
    first one that passes the test of the loop,
    [Abs(f["Total_Miles"] - targetMiles) < 0.01]; later features are not
    consulted, even if closer.  When no reference feature passes the test
    the resolved value is the empty value read from the selected
    feature. *)
Theorem C1_fallback_first_match
    (fieldName : string) (feature : gmap string Value)
    (allFeats : list (gmap string Value)) (value targetMiles : Value) :
  feature !! fieldName = Some value → IsEmpty value = true →
  feature !! "Total_Miles" = Some targetMiles → IsEmpty targetMiles = false →
  Forall (hasField "Total_Miles") allFeats →
  (∀ (pre : list (gmap string Value)) f post v,
      allFeats = (pre ++ f :: post)%list →
      Forall (λ g, withinTolerance (milesOf g) targetMiles = false) pre →
      withinTolerance (milesOf f) targetMiles = true →
      f !! fieldName = Some v →
      resolveField fieldName feature allFeats = Ok v)
  ∧ (Forall (λ g, withinTolerance (milesOf g) targetMiles = false) allFeats →
     ∃ empty, resolveField fieldName feature allFeats = Ok empty
              ∧ IsEmpty empty = true).
Proof.
  intros Hv He Hm Hne Hall.
  rewrite (resolveField_fallback _ _ _ _ _ Hv He Hm Hne). split.
  - intros pre f post v -> Hpre Hw Hfv.
    by apply scanByMiles_first_match.
  - intros Hn. exists value. split; [|done].
    by apply scanByMiles_no_match.
Qed.

Lemma C1_fallback_first_match_witness :
  resolveField "AADT" Sample.selectedNoAADT
    [Sample.refFar; Sample.refNear; Sample.refExact]
  = Ok (number 1200)
  ∧ ∃ empty,
      resolveField "AADT" Sample.selectedNoAADT [Sample.refFar] = Ok empty
      ∧ IsEmpty empty = true.
Proof.
  split.
  - refine (proj1 (C1_fallback_first_match "AADT" Sample.selectedNoAADT
                     [Sample.refFar; Sample.refNear; Sample.refExact]
                     VNull (number 12.5) _ _ _ _ _)
              [Sample.refFar] Sample.refNear [Sample.refExact] (number 1200)
              _ _ _ _).
    + reflexivity.
    + reflexivity.
    + reflexivity.
    + reflexivity.
    + repeat constructor; eexists; reflexivity.
    + reflexivity.
    + repeat constructor.
    + reflexivity.
    + reflexivity.
  - refine (proj2 (C1_fallback_first_match "AADT" Sample.selectedNoAADT
                     [Sample.refFar] VNull (number 12.5) _ _ _ _ _) _).
    + reflexivity.
    + reflexivity.
    + reflexivity.
    + reflexivity.
    + repeat constructor; eexists; reflexivity.
    + repeat constructor.
Defined.

(** The other two fallbacks differ from the one above.  The
    truck-statistics loop skips reference features whose [Total_Miles] is
    empty, where the single-field loop reads an empty [Total_Miles] as 0;
    the 4D+ miles script first looks for the reference feature with the
    same [HWY] and uses [Total_Miles] only when that finds nothing. *)
Lemma fallback_variants :
  resolveField "AADT"
    (feature [("AADT", VNull); ("Total_Miles", double 0.005)])
    [feature [("AADT", number 700); ("Total_Miles", VNull)]]
  = Ok (number 700)
  ∧ TruckStats.resolve
      (feature [("Total_Miles", double 0.005)])
      [feature [("Truck_AADT", number 70); ("Total_Miles", VNull)]]
    = Ok {| TruckStats.valTruckAADT := VNull;
            TruckStats.valTotalAADT := VNull;
            TruckStats.valTons := VNull |}
  ∧ FourDPlusMiles.resolve
      (feature [("HWY", VText "I-35W"); ("Total_Miles", number 5)])
      [feature [("HWY", VText "US-287"); ("Total_Miles", number 5);
                ("four_D_plus_miles", number 10)];
       feature [("HWY", VText " i-35w"); ("Total_Miles", number 7);
                ("four_D_plus_miles", number 20)]]
    = Ok (number 20).
Proof. repeat split; vm_compute; reflexivity. Qed.

(** ** The direct lookup *)

Lemma truck_resolve_direct selFeature allFeats truck tons :
  selFeature !! "Truck_AADT" = Some truck → IsEmpty truck = false →
  selFeature !! "Tons" = Some tons → IsEmpty tons = false →
  TruckStats.resolve selFeature allFeats
  = Ok {| TruckStats.valTruckAADT := truck;
          TruckStats.valTotalAADT := default VNull (selFeature !! "AADT");
          TruckStats.valTons := tons |}.
Proof.
  intros Ht Het Hn Hen. unfold TruckStats.resolve.
  rewrite !GetVal_total, Ht, Hn. simpl. by rewrite Het, Hen.
Qed.

Lemma fourD_resolve_direct selFeature allFeats v :
  selFeature !! "four_D_plus_miles" = Some v → IsEmpty v = false →
  FourDPlusMiles.resolve selFeature allFeats = Ok v.
Proof.
  intros Hv He. unfold FourDPlusMiles.resolve.
  rewrite !GetVal_total, Hv. simpl. by rewrite He.
Qed.

(** C2 (amended).  A selected feature whose target field is present and
    non-empty resolves to that value whatever the reference collection is:
    in the single-field scripts and, per selected feature, in the 4D+ miles
    script.  The truck-statistics script reads three fields and skips the
    fallback only when both [Truck_AADT] and [Tons] are non-empty; then the
    three values are those of the selected feature, whatever the reference
    collection is. *)
Theorem C2_direct_value_wins :
  (∀ fieldName (feature : gmap string Value) value,
      feature !! fieldName = Some value → IsEmpty value = false →
      ∀ allFeats, resolveField fieldName feature allFeats = Ok value)
  ∧ (∀ (selFeature : gmap string Value) value,
      selFeature !! "four_D_plus_miles" = Some value →
      IsEmpty value = false →
      ∀ allFeats, FourDPlusMiles.resolve selFeature allFeats = Ok value)
  ∧ (∀ (selFeature : gmap string Value) truck tons,
      selFeature !! "Truck_AADT" = Some truck → IsEmpty truck = false →
      selFeature !! "Tons" = Some tons → IsEmpty tons = false →
      ∀ allFeats,
        TruckStats.resolve selFeature allFeats
        = Ok {| TruckStats.valTruckAADT := truck;
                TruckStats.valTotalAADT := default VNull (selFeature !! "AADT");
                TruckStats.valTons := tons |}).
Proof.
  split; [|split].
  - intros. by apply resolveField_direct.
  - intros. by apply fourD_resolve_direct.
  - intros. by apply truck_resolve_direct.
Qed.

Lemma C2_direct_value_wins_witness :
  resolveField "AADT" Sample.refExact [Sample.refFar; Sample.refNear]
  = Ok (number 1500)
  ∧ TruckStats.resolve Sample.refTruck [Sample.selectedNoTons]
    = Ok {| TruckStats.valTruckAADT := number 200;
            TruckStats.valTotalAADT := number 2000;
            TruckStats.valTons := number 50 |}.
Proof.
  split.
  - apply (proj1 C2_direct_value_wins "AADT" Sample.refExact (number 1500));
      reflexivity.
  - apply (proj2 (proj2 C2_direct_value_wins) Sample.refTruck
             (number 200) (number 50)); reflexivity.
Defined.

(** C2, as stated, fails in the truck-statistics script: [Truck_AADT] and
    [AADT] are present and non-empty on the selected feature, [Tons] is
    empty, so the fallback runs and replaces all three values by those of
    the matching reference feature; the reference collection changes the
    resolved values and the displayed text. *)
Lemma C2_counterexample :
  Sample.selectedNoTons !! "Truck_AADT" = Some (number 100)
  ∧ IsEmpty (number 100) = false
  ∧ TruckStats.resolve Sample.selectedNoTons []
    = Ok {| TruckStats.valTruckAADT := number 100;
            TruckStats.valTotalAADT := number 1000;
            TruckStats.valTons := VNull |}
  ∧ TruckStats.resolve Sample.selectedNoTons [Sample.refTruck]
    = Ok {| TruckStats.valTruckAADT := number 200;
            TruckStats.valTotalAADT := number 2000;
            TruckStats.valTons := number 50 |}
  ∧ TruckStats.script (dataSourcesOf [Sample.selectedNoTons] [])
    = Ok (styled 20 "100 / 10% / 0 Tons")
  ∧ TruckStats.script (dataSourcesOf [Sample.selectedNoTons] [Sample.refTruck])
    = Ok (styled 20 "200 / 10% / 50 Tons").
Proof. repeat split; vm_compute; reflexivity. Qed.

(** ** The selected case *)

Lemma selectionID_neq_fullLayerID : selectionID ≠ fullLayerID.
Proof. vm_compute. discriminate. Qed.

Lemma context_dataSourcesOf selected reference :
  context (dataSourcesOf selected reference) selected reference.
Proof.
  unfold context, dataSourcesOf. do 2 eexists. split; [|split; [|split]].
  - apply lookup_insert_eq.
  - rewrite lookup_insert_ne by apply selectionID_neq_fullLayerID.
    apply lookup_insert_eq.
  - reflexivity.
  - reflexivity.
Qed.

Lemma fourD_scanHWY_total targetKey allFeats st :
  ∃ st', FourDPlusMiles.scanHWY targetKey allFeats st = Ok st'.
Proof.
  induction allFeats as [|f rest IH]; simpl; [by eexists|].
  rewrite !GetVal_total. simpl.
  destruct (_ && _); [by eexists | apply IH].
Qed.

Lemma fourD_scanMiles_total targetMiles allFeats st :
  ∃ st', FourDPlusMiles.scanMiles targetMiles allFeats st = Ok st'.
Proof.
  induction allFeats as [|f rest IH]; simpl; [by eexists|].
  rewrite !GetVal_total. simpl.
  destruct (_ && _); [by eexists | apply IH].
Qed.

Lemma fourD_resolve_total selFeature allFeats :
  FourDPlusMiles.resolve selFeature allFeats
  = Ok (resolved4D allFeats selFeature).
Proof.
  unfold resolved4D.
  assert (∃ v, FourDPlusMiles.resolve selFeature allFeats = Ok v) as [v ->];
    [|done].
  unfold FourDPlusMiles.resolve. rewrite !GetVal_total. simpl.
  destruct (IsEmpty (default VNull (selFeature !! "four_D_plus_miles")));
    [|by eexists].
  set (start := (default VNull (selFeature !! "four_D_plus_miles"), false)).
  assert (∃ st,
    (if negb (IsEmpty (default VNull (selFeature !! "HWY")))
     then FourDPlusMiles.scanHWY
            (Lower (Trim (toText (default VNull (selFeature !! "HWY")))))
            allFeats start
     else Ok start) = Ok st) as [st ->].
  { destruct (negb _); [apply fourD_scanHWY_total | by eexists]. }
  simpl. destruct (negb st.2); [|by eexists].
  destruct (negb _); [|by eexists].
  destruct (fourD_scanMiles_total (default VNull (selFeature !! "Total_Miles"))
              allFeats st) as [st' ->].
  by eexists.
Qed.

Lemma fourD_total_fold selectedFeatures allFeats miles4Dplus :
  FourDPlusMiles.total selectedFeatures allFeats miles4Dplus
  = Ok (fold_left addResolved (map (resolved4D allFeats) selectedFeatures)
          miles4Dplus).
Proof.
  revert miles4Dplus.
  induction selectedFeatures as [|f rest IH]; intros acc; [done|].
  simpl. rewrite fourD_resolve_total. simpl. by rewrite IH.
Qed.

Lemma AADT_display_empty v : IsEmpty v = true → AADT.display v = "0".
Proof. intros H. unfold AADT.display. by rewrite H. Qed.

(** C3 (amended).  With one or more features selected and both data
    sources present:
    - the AADT, Projects_Construction, Number_Of_Fatal_Crashes,
      Project_Cost_Construction, truck-statistics, total-miles and
      corridor-title scripts depend on the first selected feature only;
      the remaining selected features do not influence the output;
    - the first five resolve their target on that feature (directly, else
      by the fingerprint fallback), format that one value, and display a
      fixed zero string (["0"], ["$0"], ["0 / 0% / 0"]) when the resolved
      value is still empty; total-miles and corridor-title format the field
      of the first feature as read, without fallback and without zero
      string;
    - the 4D+ miles script instead resolves every selected feature and
      displays the sum of the non-empty resolved values. *)
Theorem C3_selected_case :
  (∀ script, script ∈ firstOnlyScripts →
     ∀ dataSources dataSources' first rest rest' reference,
       context dataSources (first :: rest) reference →
       context dataSources' (first :: rest') reference →
       script dataSources = script dataSources')
  ∧ (∀ dataSources first rest reference,
       context dataSources (first :: rest) reference →
       (∀ v, resolveField "AADT" first reference = Ok v →
          AADT.script dataSources
          = Ok (styled 20 (if IsEmpty v then "0" else AADT.display v)))
       ∧ (∀ v, resolveField "Projects_Construction" first reference = Ok v →
          ProjectsConstruction.script dataSources
          = Ok (styled 20 (if IsEmpty v then "0" else Text v "#,###")))
       ∧ (∀ v, resolveField "Number_Of_Fatal_Crashes" first reference = Ok v →
          FatalCrashes.script dataSources
          = Ok (styled 20 (if IsEmpty v then "0" else Text v "#,###")))
       ∧ (∀ v, resolveField "Project_Cost_Construction" first reference = Ok v →
          ProjectCost.script dataSources
          = Ok (styled 20 (if IsEmpty v then "$0"
                           else ProjectCost.formatCompact v)))
       ∧ (∀ vals, TruckStats.resolve first reference = Ok vals →
          TruckStats.script dataSources
          = Ok (styled 20 (if IsEmpty (TruckStats.valTruckAADT vals)
                           then "0 / 0% / 0"
                           else TruckStats.format vals true)))
       ∧ (∀ v, first !! "Total_Miles" = Some v →
          TotalMiles.script dataSources
          = Ok (styled 20 (Text v "#,###.0" ++ " mi")))
       ∧ (∀ v, first !! "Corridor" = Some v →
          CorridorTitle.script dataSources
          = Ok (styled 22 (toText v ++ " Corridor Profile"))))
  ∧ (∀ dataSources first rest reference,
       context dataSources (first :: rest) reference →
       FourDPlusMiles.script dataSources
       = Ok (styled 20
               (Text (VNum (fold_left addResolved
                              (map (resolved4D reference) (first :: rest))
                              (Fin 0))) "#,###.0" ++ " mi"))).
Proof.
  split; [|split].
  - intros script Hin ds ds' f rest rest' refs Hc Hc'.
    unfold firstOnlyScripts in Hin.
    repeat (apply elem_of_cons in Hin as [-> | Hin]);
      try (unfold AADT.script, ProjectsConstruction.script,
             FatalCrashes.script, ProjectCost.script, TruckStats.script,
             TotalMiles.script, CorridorTitle.script;
           by rewrite (frame_selected _ _ _ _ _ _ _ _ Hc),
                (frame_selected _ _ _ _ _ _ _ _ Hc')).
    by apply elem_of_nil in Hin.
  - intros ds f rest refs Hc. repeat split.
    + intros v Hv. unfold AADT.script.
      rewrite (frame_selected _ _ _ _ _ _ _ _ Hc). unfold AADT.caseA.
      rewrite Hv. simpl. destruct (IsEmpty v) eqn:E; [|done].
      by rewrite (AADT_display_empty _ E).
    + intros v Hv. unfold ProjectsConstruction.script.
      rewrite (frame_selected _ _ _ _ _ _ _ _ Hc).
      unfold ProjectsConstruction.caseA. rewrite Hv. simpl.
      by destruct (IsEmpty v).
    + intros v Hv. unfold FatalCrashes.script.
      rewrite (frame_selected _ _ _ _ _ _ _ _ Hc).
      unfold FatalCrashes.caseA. rewrite Hv. simpl.
      by destruct (IsEmpty v).
    + intros v Hv. unfold ProjectCost.script.
      rewrite (frame_selected _ _ _ _ _ _ _ _ Hc).
      unfold ProjectCost.caseA. rewrite Hv. simpl.
      by destruct (IsEmpty v).
    + intros vals Hv. unfold TruckStats.script.
      rewrite (frame_selected _ _ _ _ _ _ _ _ Hc).
      unfold TruckStats.caseA. rewrite Hv. simpl.
      by destruct (IsEmpty (TruckStats.valTruckAADT vals)).
    + intros v Hv. unfold TotalMiles.script.
      rewrite (frame_selected _ _ _ _ _ _ _ _ Hc).
      unfold TotalMiles.caseA. by rewrite (bracket_Some _ _ _ Hv).
    + intros v Hv. unfold CorridorTitle.script.
      rewrite (frame_selected _ _ _ _ _ _ _ _ Hc).
      unfold CorridorTitle.caseA. by rewrite (bracket_Some _ _ _ Hv).
  - intros ds f rest refs Hc. unfold FourDPlusMiles.script.
    rewrite (frame_selected _ _ _ _ _ _ _ _ Hc).
    unfold FourDPlusMiles.caseA. by rewrite fourD_total_fold.
Qed.

Lemma C3_selected_case_witness :
  AADT.script
    (dataSourcesOf [Sample.selectedNoAADT; Sample.refFar] [Sample.refNear])
  = AADT.script
      (dataSourcesOf [Sample.selectedNoAADT; Sample.refExact] [Sample.refNear])
  ∧ AADT.script
      (dataSourcesOf [Sample.selectedNoAADT; Sample.refFar] [Sample.refNear])
    = Ok (styled 20 "1,200")
  ∧ AADT.script
      (dataSourcesOf [Sample.selectedNoAADT; Sample.refFar] [Sample.refFar])
    = Ok (styled 20 "0")
  ∧ FourDPlusMiles.script (dataSourcesOf [Sample4D.seg1; Sample4D.seg2] [])
    = Ok (styled 20 "3.0 mi").
Proof.
  split; [|split; [|split]].
  - apply (proj1 C3_selected_case AADT.script) with
      (first := Sample.selectedNoAADT) (rest := [Sample.refFar])
      (rest' := [Sample.refExact]) (reference := [Sample.refNear]).
    + unfold firstOnlyScripts. apply elem_of_cons. by left.
    + apply context_dataSourcesOf.
    + apply context_dataSourcesOf.
  - apply (proj1 (proj1 (proj2 C3_selected_case) _
                    Sample.selectedNoAADT [Sample.refFar] [Sample.refNear]
                    (context_dataSourcesOf _ _))
             (number 1200)).
    reflexivity.
  - apply (proj1 (proj1 (proj2 C3_selected_case) _
                    Sample.selectedNoAADT [Sample.refFar] [Sample.refFar]
                    (context_dataSourcesOf _ _))
             VNull).
    reflexivity.
  - apply (proj2 (proj2 C3_selected_case)
             (dataSourcesOf [Sample4D.seg1; Sample4D.seg2] [])
             Sample4D.seg1 [Sample4D.seg2] []).
    apply context_dataSourcesOf.
Defined.

(** C3, as stated, fails in the 4D+ miles script, which loops over all
    selected features: with the same first selected feature and the same
    reference collection, a second selected feature changes the output. *)
Lemma C3_counterexample :
  FourDPlusMiles.script (dataSourcesOf [Sample4D.seg1] [])
  = Ok (styled 20 "1.0 mi")
  ∧ FourDPlusMiles.script (dataSourcesOf [Sample4D.seg1; Sample4D.seg2] [])
    = Ok (styled 20 "3.0 mi").
Proof. split; vm_compute; reflexivity. Qed.

(** ** Aggregation over the full layer *)

(** *** Rounding to a double

    Some values of [round64]: the doubles of 0.1, 0.01 and one third; a tie
    between two doubles going to the one with the even significand; the
    largest double and the overflow beyond it; the smallest positive double
    and the underflow below half of it. *)
Lemma round64_examples :
  round64 0.1 = Fin (3602879701896397 # 36028797018963968)
  ∧ round64 0.01 = Fin (5764607523034235 # 576460752303423488)
  ∧ round64 (1 # 3) = Fin (6004799503160661 # 18014398509481984)
  ∧ round64 (- (1 # 3)) = Fin (- 6004799503160661 # 18014398509481984)
  ∧ round64 9007199254740993 = Fin 9007199254740992
  ∧ round64 9007199254740995 = Fin 9007199254740996
  ∧ round64 1.7976931348623157e308 = Fin (inject_Z (2 ^ 1024 - 2 ^ 971))
  ∧ round64 1.8e308 = Inf false
  ∧ round64 (-1.8e308) = Inf true
  ∧ round64 3e-324 = Fin (1 # 2 ^ 1074)
  ∧ round64 2e-324 = Fin 0.
Proof. repeat split; vm_compute; reflexivity. Qed.

(** The sum of three numbers depends on the order in which they are
    added. *)
Lemma fadd_order_example :
  fadd (fadd (Fin 10000000000000000) (Fin 1)) (Fin 1)
  = Fin 10000000000000000
  ∧ fadd (fadd (Fin 1) (Fin 1)) (Fin 10000000000000000)
    = Fin 10000000000000002.
Proof. split; vm_compute; reflexivity. Qed.

(** *** Rounding keeps the sign *)

Lemma roundHalfEven_nonneg (x : Q) : (0 <= x)%Q → (0 <= roundHalfEven x)%Z.
Proof.
  intros Hx. unfold roundHalfEven.
  assert (0 <= Qfloor x)%Z as Hf.
  { change 0%Z with (Qfloor 0). by apply Qfloor_resp_le. }
  destruct (x - inject_Z (Qfloor x) ?= 1 # 2)%Q; [|lia|lia].
  destruct (Z.even (Qfloor x)); lia.
Qed.

Lemma roundMagnitude_nonneg (a : Q) : (0 <= a)%Q → nonneg (roundMagnitude a).
Proof.
  intros Ha. unfold roundMagnitude.
  set (ulp := Qpower 2 (Z.max (floorLog2 a - 52) (-1074))).
  assert (0 < ulp)%Q as Hulp by (by apply Qpower_0_lt).
  destruct (Qle_bool _ _); [done|].
  cbn [nonneg]. rewrite Qred_correct.
  apply Qmult_le_0_compat; [|by apply Qlt_le_weak].
  change 0%Q with (inject_Z 0). rewrite <- Zle_Qle.
  apply roundHalfEven_nonneg. apply Qle_shift_div_l; [done|].
  by rewrite Qmult_0_l.
Qed.

Lemma round64_nonneg (q : Q) : (0 <= q)%Q → nonneg (round64 q).
Proof.
  intros Hq. unfold round64.
  destruct (Qeq_bool q 0); [apply Qle_refl|].
  rewrite (proj2 (Qle_bool_iff 0 q) Hq). by apply roundMagnitude_nonneg.
Qed.

Lemma roundMagnitude_not_NaN (a : Q) : roundMagnitude a ≠ NaN.
Proof. unfold roundMagnitude. by destruct (Qle_bool _ _). Qed.

(** Rounding never gives NaN. *)
Lemma round64_not_NaN (q : Q) : round64 q ≠ NaN.
Proof.
  unfold round64. destruct (Qeq_bool q 0); [done|].
  destruct (Qle_bool 0 q); [apply roundMagnitude_not_NaN|].
  pose proof (roundMagnitude_not_NaN (- q)) as H.
  by destruct (roundMagnitude (- q)).
Qed.

Lemma rounded_nonneg (n : num) : nonneg n → nonneg (rounded n).
Proof. destruct n as [|q|s]; [done | apply round64_nonneg | done]. Qed.

Lemma fadd_nonneg (a b : num) : nonneg a → nonneg b → nonneg (fadd a b).
Proof.
  intros Ha Hb. apply rounded_nonneg.
  destruct a as [|x|s], b as [|y|t]; try done; cbn [nonneg nadd] in *.
  - rewrite <- (Qplus_0_l 0). by apply Qplus_le_compat.
  - by subst.
Qed.

Lemma positive_nonneg (n : num) : ngt n (Fin 0) = true → nonneg n.
Proof.
  destruct n as [|q|s]; cbn [ngt nlt nonneg]; [done| |].
  - intros H. apply Qlt_le_weak. by apply Qltb_lt.
  - by destruct s.
Qed.

(** On a number that is not negative the guard [> 0] of the scripts fails
    exactly for zero. *)
Lemma nonneg_guard (n : num) :
  nonneg n → ngt n (Fin 0) = negb (isZero n).
Proof.
  destruct n as [|q|s]; cbn [nonneg ngt nlt isZero]; [done| |].
  - intros Hq. destruct (Qeq_bool q 0) eqn:E; cbn [negb].
    + apply Qeq_bool_iff in E. unfold Qltb. rewrite negb_false_iff.
      apply Qle_bool_iff. rewrite E. apply Qle_refl.
    + apply Qltb_lt. apply Qle_lteq in Hq as [Hlt | Heq]; [done|].
      symmetry in Heq. apply Qeq_bool_iff in Heq. congruence.
  - by intros ->.
Qed.

(** The running sum of terms that are not negative is zero, positive or
    plus infinity. *)
Lemma sumOver_nonneg (g : gmap string Value → num) features acc :
  nonneg acc →
  Forall (λ f, nonneg (g f)) features →
  nonneg (fold_left (λ a f, fadd a (g f)) features acc).
Proof.
  revert acc. induction features as [|f rest IH]; intros acc Ha Hpos; [done|].
  inversion Hpos as [|? ? Hf Hrest]; subst.
  cbn [fold_left]. apply IH; [|done]. by apply fadd_nonneg.
Qed.

Lemma fmul_positive_nonneg (a b : num) :
  ngt a (Fin 0) = true → ngt b (Fin 0) = true → nonneg (fmul a b).
Proof.
  intros Ha Hb. apply rounded_nonneg.
  destruct a as [|x|s], b as [|y|t]; try done; cbn [ngt nlt] in Ha, Hb.
  - apply Qltb_lt in Ha, Hb. cbn [nmul nonneg].
    apply Qmult_le_0_compat; by apply Qlt_le_weak.
  - apply Qltb_lt in Ha. destruct t; [done|]. cbn [nmul].
    rewrite (Qltb_false x 0) by (by apply Qlt_le_weak).
    destruct (Qeq_bool x 0) eqn:E; [|done].
    apply Qeq_bool_iff in E. rewrite E in Ha. by apply Qlt_irrefl in Ha.
  - apply Qltb_lt in Hb. destruct s; [done|]. cbn [nmul].
    rewrite (Qltb_false y 0) by (by apply Qlt_le_weak).
    destruct (Qeq_bool y 0) eqn:E; [|done].
    apply Qeq_bool_iff in E. rewrite E in Hb. by apply Qlt_irrefl in Hb.
  - by destruct s, t.
Qed.

Lemma Forall_filter_true {A} (p : A → bool) (l : list A) :
  Forall (λ x, p x = true) (List.filter p l).
Proof.
  apply List.Forall_forall. intros x Hx.
  by apply List.filter_In in Hx as [_ ?].
Qed.

Lemma AADT_guard aadt totalMiles :
  negb (IsEmpty aadt) && negb (IsEmpty totalMiles)
  && ngt (Number aadt) (Fin 0) && ngt (Number totalMiles) (Fin 0)
  = presentPositive aadt && presentPositive totalMiles.
Proof.
  unfold presentPositive.
  destruct (IsEmpty aadt), (IsEmpty totalMiles),
    (ngt (Number aadt) (Fin 0)), (ngt (Number totalMiles) (Fin 0)); done.
Qed.

(** The loop of the AADT script computes the two sums over the counted
    features, in layer order. *)
Lemma AADT_accumulate_sums allFeatures sumWeightedAADT sumTotalMiles :
  Forall (λ f, hasField "AADT" f ∧ hasField "Total_Miles" f) allFeatures →
  AADT.accumulate allFeatures sumWeightedAADT sumTotalMiles
  = Ok (fold_left (λ a f, fadd a (fmul (Number (fieldOf "AADT" f))
                                       (Number (fieldOf "Total_Miles" f))))
          (List.filter AADT_counts allFeatures) sumWeightedAADT,
        fold_left (λ a f, fadd a (Number (fieldOf "Total_Miles" f)))
          (List.filter AADT_counts allFeatures) sumTotalMiles).
Proof.
  revert sumWeightedAADT sumTotalMiles.
  induction allFeatures as [|f rest IH]; intros sw st Hall; [done|].
  inversion Hall as [|? ? [[a Ha] [m Hm]] Hrest]; subst.
  assert (fieldOf "AADT" f = a) as Hfa by (unfold fieldOf; by rewrite Ha).
  assert (fieldOf "Total_Miles" f = m) as Hfm
    by (unfold fieldOf; by rewrite Hm).
  assert (AADT_counts f = presentPositive a && presentPositive m) as Hc
    by (unfold AADT_counts; by rewrite Hfa, Hfm).
  cbn [AADT.accumulate List.filter].
  rewrite (bracket_Some _ _ _ Ha), (bracket_Some _ _ _ Hm).
  cbn [mbind result_bind]. rewrite AADT_guard, Hc.
  destruct (presentPositive a && presentPositive m).
  - cbn [fold_left]. rewrite Hfa, Hfm. by apply IH.
  - by apply IH.
Qed.

Lemma presentPositive_positive v :
  presentPositive v = true → ngt (Number v) (Fin 0) = true.
Proof. unfold presentPositive. intros H. by apply andb_prop in H as [_ H]. Qed.

Lemma zero_text :
  Text (VNum (Round (Fin 0) 0)) "#,###" = "0".
Proof. vm_compute. reflexivity. Qed.

(** The weight total of the specification's average is never negative and
    never NaN. *)
Lemma weight_total_nonneg counts weightField features :
  (∀ f, counts f = true → ngt (Number (fieldOf weightField f)) (Fin 0) = true) →
  nonneg (sumOver (λ f, Number (fieldOf weightField f))
            (List.filter counts features)).
Proof.
  intros Hcounts. apply sumOver_nonneg; [apply Qle_refl|].
  eapply Forall_impl; [apply Forall_filter_true|].
  intros f Hf. apply positive_nonneg. by apply Hcounts.
Qed.

Lemma AADT_counts_weight f :
  AADT_counts f = true →
  ngt (Number (fieldOf "Total_Miles" f)) (Fin 0) = true.
Proof.
  unfold AADT_counts. intros H. apply andb_prop in H as [_ H].
  by apply presentPositive_positive.
Qed.

(** In the AADT script the text shown for an empty selection is the
    rounded weighted average of the specification, evaluated in the
    arithmetic of the script. *)
Lemma AADT_caseB_spec allFeatures :
  Forall (λ f, hasField "AADT" f ∧ hasField "Total_Miles" f) allFeatures →
  AADT.caseB allFeatures
  = Ok (Text (VNum (Round (weightedAverage_spec "AADT" "Total_Miles"
                             allFeatures) 0)) "#,###").
Proof.
  intros Hall. unfold AADT.caseB.
  rewrite (AADT_accumulate_sums _ _ _ Hall). cbn [mbind result_bind].
  unfold weightedAverage_spec, weightedAverageOver.
  fold AADT_counts. fold (sumOver (λ f, Number (fieldOf "Total_Miles" f))
                            (List.filter AADT_counts allFeatures)).
  rewrite (nonneg_guard _ (weight_total_nonneg AADT_counts "Total_Miles"
                             allFeatures AADT_counts_weight)).
  destruct (isZero _); cbn [negb]; [|done].
  by rewrite zero_text.
Qed.

Lemma AADT_caseB_zero_weight allFeatures :
  Forall (λ f, hasField "AADT" f ∧ hasField "Total_Miles" f) allFeatures →
  isZero (sumOver (λ f, Number (fieldOf "Total_Miles" f))
            (List.filter AADT_counts allFeatures)) = true →
  AADT.caseB allFeatures = Ok "0".
Proof.
  intros Hall Hz. rewrite (AADT_caseB_spec _ Hall).
  unfold weightedAverage_spec, weightedAverageOver. fold AADT_counts.
  rewrite Hz. by rewrite zero_text.
Qed.

(** The weighted average of the specification is not NaN as long as the
    weight total is finite: the counted values and weights are positive,
    and the quotient is only taken for a total weight other than 0. *)
Lemma weightedAverage_spec_not_NaN valueField weightField features t :
  sumOver (λ f, Number (fieldOf weightField f))
    (List.filter (λ f, presentPositive (fieldOf valueField f)
                       && presentPositive (fieldOf weightField f)) features)
  = Fin t →
  weightedAverage_spec valueField weightField features ≠ NaN.
Proof.
  intros Ht. unfold weightedAverage_spec, weightedAverageOver.
  rewrite Ht. cbn [isZero]. destruct (Qeq_bool t 0) eqn:E; [done|].
  set (counts := λ f : gmap string Value,
         presentPositive (fieldOf valueField f)
         && presentPositive (fieldOf weightField f)).
  assert (nonneg (sumOver (λ f, fmul (Number (fieldOf valueField f))
                                     (Number (fieldOf weightField f)))
                    (List.filter counts features))) as Hsw.
  { apply sumOver_nonneg; [apply Qle_refl|].
    eapply Forall_impl; [apply Forall_filter_true|].
    intros f Hf. unfold counts in Hf. apply andb_prop in Hf as [Hv Hw].
    apply presentPositive_positive in Hv, Hw.
    by apply fmul_positive_nonneg. }
  revert Hsw. generalize (sumOver (λ f, fmul (Number (fieldOf valueField f))
                                     (Number (fieldOf weightField f)))
                            (List.filter counts features)).
  intros sw Hsw. destruct sw as [|s|b]; [done| |].
  - unfold fdiv. cbn [ndiv]. rewrite E. apply round64_not_NaN.
  - unfold fdiv. cbn [ndiv rounded]. done.
Qed.

Lemma truck_accumulate_sums allFeatures s :
  TruckStats.accumulate allFeatures s
  = Ok {| TruckStats.sumWeightedTruckAADT :=
            fold_left (λ a f, fadd a (fmul (Number (fieldOf "Truck_AADT" f))
                                           (Number (fieldOf "Total_Miles" f))))
              (List.filter truckCounted allFeatures)
              (TruckStats.sumWeightedTruckAADT s);
          TruckStats.sumWeightedTotalAADT :=
            fold_left (λ a f, fadd a (fmul (Number (fieldOf "AADT" f))
                                           (Number (fieldOf "Total_Miles" f))))
              (List.filter truckCounted allFeatures)
              (TruckStats.sumWeightedTotalAADT s);
          TruckStats.sumWeightedTons :=
            fold_left (λ a f, fadd a (fmul (Number (fieldOf "Tons" f))
                                           (Number (fieldOf "Total_Miles" f))))
              (List.filter truckCounted allFeatures)
              (TruckStats.sumWeightedTons s);
          TruckStats.sumTotalMiles :=
            fold_left (λ a f, fadd a (Number (fieldOf "Total_Miles" f)))
              (List.filter truckCounted allFeatures)
              (TruckStats.sumTotalMiles s) |}.
Proof.
  revert s. induction allFeatures as [|f rest IH]; intros s.
  - by destruct s.
  - cbn [TruckStats.accumulate List.filter]. rewrite !GetVal_total.
    cbn [mbind result_bind]. fold (fieldOf "Truck_AADT" f).
    fold (fieldOf "Total_Miles" f). fold (fieldOf "AADT" f).
    fold (fieldOf "Tons" f). fold (truckCounted f).
    destruct (truckCounted f); by rewrite IH.
Qed.

Lemma truckCounted_weight f :
  truckCounted f = true →
  ngt (Number (fieldOf "Total_Miles" f)) (Fin 0) = true.
Proof. unfold truckCounted. intros H. by apply andb_prop in H as [_ ?]. Qed.

Lemma truck_averages_spec allFeatures :
  TruckStats.averages allFeatures
  = Ok ({| TruckStats.valTruckAADT :=
             VNum (weightedAverageOver truckCounted "Truck_AADT" "Total_Miles"
                     allFeatures);
           TruckStats.valTotalAADT :=
             VNum (weightedAverageOver truckCounted "AADT" "Total_Miles"
                     allFeatures);
           TruckStats.valTons :=
             VNum (weightedAverageOver truckCounted "Tons" "Total_Miles"
                     allFeatures) |},
        negb (isZero (sumOver (λ f, Number (fieldOf "Total_Miles" f))
                        (List.filter truckCounted allFeatures)))).
Proof.
  unfold TruckStats.averages. rewrite truck_accumulate_sums.
  cbn [mbind result_bind TruckStats.sumTotalMiles
       TruckStats.sumWeightedTruckAADT TruckStats.sumWeightedTotalAADT
       TruckStats.sumWeightedTons TruckStats.zeroSums].
  unfold weightedAverageOver.
  fold (sumOver (λ f, Number (fieldOf "Total_Miles" f))
          (List.filter truckCounted allFeatures)).
  rewrite (nonneg_guard _ (weight_total_nonneg truckCounted "Total_Miles"
                             allFeatures truckCounted_weight)).
  by destruct (isZero _).
Qed.

Lemma presentPositive_cast v :
  presentPositive v = ngt (Number v) (Fin 0).
Proof.
  unfold presentPositive. destruct v as [|n|s]; try done.
  by destruct s.
Qed.

Lemma truck_average_is_spec allFeatures :
  weightedAverageOver truckCounted "Truck_AADT" "Total_Miles" allFeatures
  = weightedAverage_spec "Truck_AADT" "Total_Miles" allFeatures.
Proof.
  unfold weightedAverage_spec, weightedAverageOver.
  rewrite (List.filter_ext truckCounted
             (λ f, presentPositive (fieldOf "Truck_AADT" f)
                   && presentPositive (fieldOf "Total_Miles" f))); [done|].
  intros f. unfold truckCounted. by rewrite !presentPositive_cast.
Qed.

(** The arithmetic is that of the code.  Two segments of 0.7 miles with
    AADT 1000 and 1001: the sums are 1400.6999999999998 and 1.4, the
    quotient is 1000.4999999999999, and the script shows 1,000.  Three
    segments with the same AADT 21322: the quotient is
    21321.999999999996. *)
Lemma weighted_average_rounding_examples :
  AADT.caseB
    [feature [("AADT", double 1000); ("Total_Miles", double 0.7)];
     feature [("AADT", double 1001); ("Total_Miles", double 0.7)]]
  = Ok "1,000"
  ∧ weightedAverage_spec "AADT" "Total_Miles"
      [feature [("AADT", double 1000); ("Total_Miles", double 0.7)];
       feature [("AADT", double 1001); ("Total_Miles", double 0.7)]]
    = round64 1000.4999999999999
  ∧ weightedAverage_spec "AADT" "Total_Miles"
      [feature [("AADT", double 21322); ("Total_Miles", double 0.1)];
       feature [("AADT", double 21322); ("Total_Miles", double 0.2)];
       feature [("AADT", double 21322); ("Total_Miles", double 0.3)]]
    = round64 21321.999999999996.
Proof. repeat split; vm_compute; reflexivity. Qed.

(** With weights so large that their sum overflows both sums are plus
    infinity, the guard [> 0] passes, and the quotient is NaN. *)
Lemma weighted_average_overflow :
  AADT.accumulate
    [feature [("AADT", double 1); ("Total_Miles", double 1e308)];
     feature [("AADT", double 1); ("Total_Miles", double 1e308)]]
    (Fin 0) (Fin 0)
  = Ok (Inf false, Inf false)
  ∧ weightedAverage_spec "AADT" "Total_Miles"
      [feature [("AADT", double 1); ("Total_Miles", double 1e308)];
       feature [("AADT", double 1); ("Total_Miles", double 1e308)]]
    = NaN
  ∧ AADT.caseB
      [feature [("AADT", double 1); ("Total_Miles", double 1e308)];
       feature [("AADT", double 1); ("Total_Miles", double 1e308)]]
    = Ok (Text (VNum NaN) "#,###").
Proof. repeat split; vm_compute; reflexivity. Qed.

(** C5 (amended).  In the AADT script the weighted average is
    sum(AADT × Total_Miles) / sum(Total_Miles), the sums running in layer
    order over exactly the reference features on which both fields are
    present and strictly positive, each operation in the floating-point
    arithmetic of the script.  When the accumulated weight is 0 the script
    shows ["0"] without dividing.  The average is not NaN as long as the
    accumulated weight is finite; it is NaN when both sums have overflowed
    to infinity.  In the truck-statistics script the three
    averages share one guard, which reads [Truck_AADT] and [Total_Miles]
    only: each is sum(value × Total_Miles) / sum(Total_Miles) over the
    features whose [Truck_AADT] and [Total_Miles] are strictly positive
    (for [Truck_AADT] itself this is the same set as "both present and
    positive"); when that weight is 0 the script shows ["0 / 0% / 0"]. *)
Theorem C5_weighted_average :
  (∀ allFeatures,
     Forall (λ f, hasField "AADT" f ∧ hasField "Total_Miles" f) allFeatures →
     AADT.accumulate allFeatures (Fin 0) (Fin 0)
     = Ok (sumOver (λ f, fmul (Number (fieldOf "AADT" f))
                              (Number (fieldOf "Total_Miles" f)))
             (List.filter AADT_counts allFeatures),
           sumOver (λ f, Number (fieldOf "Total_Miles" f))
             (List.filter AADT_counts allFeatures))
     ∧ AADT.caseB allFeatures
       = Ok (Text (VNum (Round (weightedAverage_spec "AADT" "Total_Miles"
                                  allFeatures) 0)) "#,###")
     ∧ (isZero (sumOver (λ f, Number (fieldOf "Total_Miles" f))
                  (List.filter AADT_counts allFeatures)) = true →
        AADT.caseB allFeatures = Ok "0"))
  ∧ (∀ allFeatures,
       (∀ t, sumOver (λ f, Number (fieldOf "Total_Miles" f))
               (List.filter AADT_counts allFeatures) = Fin t →
          weightedAverage_spec "AADT" "Total_Miles" allFeatures ≠ NaN)
       ∧ (sumOver (λ f, fmul (Number (fieldOf "AADT" f))
                             (Number (fieldOf "Total_Miles" f)))
            (List.filter AADT_counts allFeatures) = Inf false →
          sumOver (λ f, Number (fieldOf "Total_Miles" f))
            (List.filter AADT_counts allFeatures) = Inf false →
          weightedAverage_spec "AADT" "Total_Miles" allFeatures = NaN))
  ∧ (∀ allFeatures,
       TruckStats.averages allFeatures
       = Ok ({| TruckStats.valTruckAADT :=
                  VNum (weightedAverageOver truckCounted
                          "Truck_AADT" "Total_Miles" allFeatures);
                TruckStats.valTotalAADT :=
                  VNum (weightedAverageOver truckCounted
                          "AADT" "Total_Miles" allFeatures);
                TruckStats.valTons :=
                  VNum (weightedAverageOver truckCounted
                          "Tons" "Total_Miles" allFeatures) |},
             negb (isZero (sumOver (λ f, Number (fieldOf "Total_Miles" f))
                             (List.filter truckCounted allFeatures))))
       ∧ weightedAverageOver truckCounted "Truck_AADT" "Total_Miles"
           allFeatures
         = weightedAverage_spec "Truck_AADT" "Total_Miles" allFeatures
       ∧ (isZero (sumOver (λ f, Number (fieldOf "Total_Miles" f))
                    (List.filter truckCounted allFeatures)) = true →
          TruckStats.caseB allFeatures = Ok "0 / 0% / 0")).
Proof.
  split; [|split].
  - intros allFeatures Hall. split; [|split].
    + by apply AADT_accumulate_sums.
    + by apply AADT_caseB_spec.
    + by apply AADT_caseB_zero_weight.
  - intros allFeatures. split.
    + intros t. apply weightedAverage_spec_not_NaN.
    + intros Hsw Hst. unfold weightedAverage_spec, weightedAverageOver.
      fold AADT_counts. by rewrite Hsw, Hst.
  - intros allFeatures. split; [|split].
    + apply truck_averages_spec.
    + apply truck_average_is_spec.
    + intros Hz. unfold TruckStats.caseB.
      rewrite truck_averages_spec, Hz. reflexivity.
Qed.

Lemma C5_weighted_average_witness :
  AADT.caseB [Sample.refFar; Sample.refNear] = Ok "988"
  ∧ AADT.caseB [Sample.selectedNoAADT] = Ok "0"
  ∧ weightedAverage_spec "AADT" "Total_Miles" [Sample.refFar; Sample.refNear]
    ≠ NaN.
Proof.
  split; [|split].
  - refine (proj1 (proj2 (proj1 C5_weighted_average
                            [Sample.refFar; Sample.refNear] _))).
    repeat constructor; eexists; reflexivity.
  - refine (proj2 (proj2 (proj1 C5_weighted_average
                            [Sample.selectedNoAADT] _)) _).
    + repeat constructor; eexists; reflexivity.
    + reflexivity.
  - refine (proj1 (proj1 (proj2 C5_weighted_average)
                     [Sample.refFar; Sample.refNear])
              (5982046942543217 # 140737488355328) _).
    vm_compute. reflexivity.
Defined.

(** C5, as stated, fails for the AADT and Tons averages of the
    truck-statistics script.  A segment with AADT 1000 and no trucks is left
    out of the AADT average although its AADT and its length are present
    and positive: the script averages to 2000 where the formula of the
    claim gives 1500, and shows 5% where that formula would show 7%. *)
Lemma C5_counterexample :
  numEq (truckAverageAADT [SampleTruck.noTrucks; SampleTruck.trucks])
        (Fin 2000) = true
  ∧ numEq (weightedAverage_spec "AADT" "Total_Miles"
             [SampleTruck.noTrucks; SampleTruck.trucks])
          (Fin 1500) = true
  ∧ TruckStats.caseB [SampleTruck.noTrucks; SampleTruck.trucks]
    = Ok "100 / 5% / 20 Tons"
  ∧ TruckStats.format
      {| TruckStats.valTruckAADT :=
           VNum (weightedAverage_spec "Truck_AADT" "Total_Miles"
                   [SampleTruck.noTrucks; SampleTruck.trucks]);
         TruckStats.valTotalAADT :=
           VNum (weightedAverage_spec "AADT" "Total_Miles"
                   [SampleTruck.noTrucks; SampleTruck.trucks]);
         TruckStats.valTons :=
           VNum (weightedAverage_spec "Tons" "Total_Miles"
                   [SampleTruck.noTrucks; SampleTruck.trucks]) |} true
    = "100 / 7% / 15 Tons".
Proof. repeat split; vm_compute; reflexivity. Qed.

(** ** The unselected case *)

Lemma sumFrom_fold features fieldName total :
  Forall (hasField fieldName) features →
  sumFrom features fieldName total
  = Ok (fold_left (λ acc f, fadd acc (Number (fieldOf fieldName f)))
          features total).
Proof.
  revert total. induction features as [|f rest IH]; intros total Hall; [done|].
  inversion Hall as [|? ? [v Hv] Hrest]; subst.
  cbn [sumFrom fold_left]. rewrite (bracket_Some _ _ _ Hv).
  cbn [mbind result_bind]. rewrite (IH _ Hrest).
  unfold fieldOf. by rewrite Hv.
Qed.

Lemma Sum_sumField features fieldName :
  Forall (hasField fieldName) features →
  Sum features fieldName = Ok (sumField fieldName features).
Proof. intros Hall. unfold Sum. by rewrite (sumFrom_fold _ _ _ Hall). Qed.

Lemma Distinct_total features fieldName :
  Forall (hasField fieldName) features →
  ∃ rows, Distinct features fieldName = Ok rows.
Proof.
  intros Hall. unfold Distinct.
  assert (∃ vs, column features fieldName = Ok vs) as [vs ->];
    [|by eexists].
  induction Hall as [|f rest [v Hv] _ [vs IH]]; [by eexists|].
  cbn [column]. rewrite (bracket_Some _ _ _ Hv), IH. by eexists.
Qed.

(** C4 (amended).  With nothing selected and both data sources present,
    the numeric scripts show the formatted aggregate of their field over
    the whole reference layer: the sum in total-miles, 4D+ miles,
    Number_Of_Fatal_Crashes, Projects_Construction and
    Project_Cost_Construction; the weighted average in AADT and in
    truck-statistics.  The corridor-title script evaluates the distinct
    count and shows a fixed title instead of it. *)
Theorem C4_unselected_case
    (dataSources : gmap string DataSource)
    (reference : list (gmap string Value)) :
  context dataSources [] reference →
  (Forall (hasField "Total_Miles") reference →
     TotalMiles.script dataSources
     = Ok (styled 20 (Text (VNum (sumField "Total_Miles" reference))
                        "#,###.0" ++ " mi")))
  ∧ (Forall (hasField "four_D_plus_miles") reference →
     FourDPlusMiles.script dataSources
     = Ok (styled 20 (Text (VNum (sumField "four_D_plus_miles" reference))
                        "#,###.0" ++ " mi")))
  ∧ (Forall (hasField "Number_Of_Fatal_Crashes") reference →
     FatalCrashes.script dataSources
     = Ok (styled 20 (Text (VNum (sumField "Number_Of_Fatal_Crashes"
                                    reference)) "#,###")))
  ∧ (Forall (hasField "Projects_Construction") reference →
     ProjectsConstruction.script dataSources
     = Ok (styled 20 (Text (VNum (sumField "Projects_Construction"
                                    reference)) "#,###")))
  ∧ (Forall (hasField "Project_Cost_Construction") reference →
     ProjectCost.script dataSources
     = Ok (styled 20 (ProjectCost.formatCompact
                        (VNum (sumField "Project_Cost_Construction"
                                 reference)))))
  ∧ (Forall (λ f, hasField "AADT" f ∧ hasField "Total_Miles" f) reference →
     AADT.script dataSources
     = Ok (styled 20 (Text (VNum (Round (weightedAverage_spec
                                           "AADT" "Total_Miles" reference) 0))
                        "#,###")))
  ∧ TruckStats.script dataSources
    = Ok (styled 20
            (TruckStats.format
               {| TruckStats.valTruckAADT :=
                    VNum (weightedAverageOver truckCounted
                            "Truck_AADT" "Total_Miles" reference);
                  TruckStats.valTotalAADT :=
                    VNum (weightedAverageOver truckCounted
                            "AADT" "Total_Miles" reference);
                  TruckStats.valTons :=
                    VNum (weightedAverageOver truckCounted
                            "Tons" "Total_Miles" reference) |}
               (negb (isZero (sumOver (λ f, Number (fieldOf "Total_Miles" f))
                                (List.filter truckCounted reference))))))
  ∧ (Forall (hasField "Corridor") reference →
     CorridorTitle.script dataSources = Ok (styled 22 CorridorTitle.title)).
Proof.
  intros Hc. repeat split.
  - intros Hall. unfold TotalMiles.script, TotalMiles.caseB.
    by rewrite (frame_unselected _ _ _ _ _ _ Hc), (Sum_sumField _ _ Hall).
  - intros Hall. unfold FourDPlusMiles.script, FourDPlusMiles.caseB.
    by rewrite (frame_unselected _ _ _ _ _ _ Hc), (Sum_sumField _ _ Hall).
  - intros Hall. unfold FatalCrashes.script, FatalCrashes.caseB.
    by rewrite (frame_unselected _ _ _ _ _ _ Hc), (Sum_sumField _ _ Hall).
  - intros Hall.
    unfold ProjectsConstruction.script, ProjectsConstruction.caseB.
    by rewrite (frame_unselected _ _ _ _ _ _ Hc), (Sum_sumField _ _ Hall).
  - intros Hall. unfold ProjectCost.script, ProjectCost.caseB.
    by rewrite (frame_unselected _ _ _ _ _ _ Hc), (Sum_sumField _ _ Hall).
  - intros Hall. unfold AADT.script.
    by rewrite (frame_unselected _ _ _ _ _ _ Hc), (AADT_caseB_spec _ Hall).
  - unfold TruckStats.script, TruckStats.caseB.
    by rewrite (frame_unselected _ _ _ _ _ _ Hc), truck_averages_spec.
  - intros Hall. unfold CorridorTitle.script, CorridorTitle.caseB.
    rewrite (frame_unselected _ _ _ _ _ _ Hc).
    by destruct (Distinct_total _ _ Hall) as [rows ->].
Qed.

Lemma C4_unselected_case_witness :
  TotalMiles.script (dataSourcesOf [] [SampleCorridor.north; SampleCorridor.west])
  = Ok (styled 20 "42.5 mi")
  ∧ TruckStats.script (dataSourcesOf [] [SampleTruck.noTrucks; SampleTruck.trucks])
    = Ok (styled 20 "100 / 5% / 20 Tons").
Proof.
  split.
  - refine (proj1 (C4_unselected_case _
              [SampleCorridor.north; SampleCorridor.west]
              (context_dataSourcesOf _ _)) _).
    repeat constructor; eexists; reflexivity.
  - exact (proj1 (proj2 (proj2 (proj2 (proj2 (proj2 (proj2
             (C4_unselected_case _
                [SampleTruck.noTrucks; SampleTruck.trucks]
                (context_dataSourcesOf _ _))))))))).
Defined.

(** C4, as stated, fails in the corridor-title script: the layer has two
    distinct corridors, the count is computed, and the text shown is the
    fixed title, the same as for a layer with one corridor. *)
Lemma C4_counterexample :
  Distinct [SampleCorridor.north; SampleCorridor.west] "Corridor"
  = Ok [VText "I-35W"; VText "US-287"]
  ∧ CorridorTitle.script
      (dataSourcesOf [] [SampleCorridor.north; SampleCorridor.west])
    = Ok (styled 22 "Fort Worth District Corridors with Greatest Needs")
  ∧ CorridorTitle.script (dataSourcesOf [] [SampleCorridor.north])
    = Ok (styled 22 "Fort Worth District Corridors with Greatest Needs").
Proof. repeat split; vm_compute; reflexivity. Qed.

(** ** Compact number formatting *)

Lemma roundHalfAway_Qeq (x y : Q) :
  (x == y)%Q → roundHalfAway x = roundHalfAway y.
Proof.
  intros H. unfold roundHalfAway.
  assert (Qle_bool 0 x = Qle_bool 0 y) as ->.
  { destruct (Qle_bool 0 y) eqn:E.
    - apply Qle_bool_iff. rewrite H. by apply Qle_bool_iff.
    - destruct (Qle_bool 0 x) eqn:E'; [|done].
      apply Qle_bool_iff in E'. rewrite H in E'.
      apply Qle_bool_iff in E'. congruence. }
  destruct (Qle_bool 0 y).
  - apply Qfloor_comp. by rewrite H.
  - f_equal. apply Qfloor_comp. by rewrite H.
Qed.

Lemma Round_Qeq (x y : Q) numPlaces :
  (x == y)%Q → Round (Fin x) numPlaces = Round (Fin y) numPlaces.
Proof.
  intros H. unfold Round. do 3 f_equal.
  apply roundHalfAway_Qeq. by rewrite H.
Qed.

(** [Abs(val) * sign] is [val] again. *)
Lemma abs_times_sign (q d : Q) :
  ((Qabs q / d) * (if Qltb q 0 then -1 else 1) == q / d)%Q.
Proof.
  destruct (Qltb q 0) eqn:E.
  - apply Qltb_lt in E. rewrite (Qabs_neg q) by (by apply Qlt_le_weak).
    unfold Qdiv. ring.
  - apply Qltb_ge in E. rewrite (Qabs_pos q) by done.
    unfold Qdiv. ring.
Qed.

Lemma Text_sixteen n :
  Text (VNum n) "#.################" = toText (VNum n).
Proof. by destruct n. Qed.

Lemma FormatCompact_scaled (q d : Q) suffix :
  Qeq_bool d 0 = false →
  Text (VNum (Round (nmul (ndiv (Fin (Qabs q)) (Fin d))
                       (if nlt (Fin q) (Fin 0) then Fin (-1) else Fin 1)) 1))
    "#.################" ++ suffix
  = toText (VNum (Round (Fin (q / d)) 1)) ++ suffix.
Proof.
  intros Hd. rewrite Text_sixteen. do 3 f_equal.
  cbn [ndiv nlt]. rewrite Hd.
  destruct (Qltb q 0) eqn:E; cbn [nmul]; apply Round_Qeq.
  - generalize (abs_times_sign q d). by rewrite E.
  - generalize (abs_times_sign q d). by rewrite E.
Qed.

Lemma FormatCompact_unscaled (q : Q) :
  Text (VNum (Round (nmul (Fin (Qabs q))
                       (if nlt (Fin q) (Fin 0) then Fin (-1) else Fin 1)) 1))
    "#.################" ++ ""
  = toText (VNum (Round (Fin q) 1)) ++ "".
Proof.
  rewrite Text_sixteen. do 3 f_equal. cbn [nlt].
  destruct (Qltb q 0) eqn:E; cbn [nmul]; apply Round_Qeq.
  - apply Qltb_lt in E. rewrite (Qabs_neg q) by (by apply Qlt_le_weak). ring.
  - apply Qltb_ge in E. rewrite (Qabs_pos q) by done. ring.
Qed.

Lemma append_empty (s : string) : s ++ "" = s.
Proof.
  induction s as [|c s IH]; [done|].
  change (String c (s ++ "") = String c s). by rewrite IH.
Qed.

(** ** The text of a rounded number *)

(** Number pictures on some values: the fraction keeps its leading zeros,
    and [#] digits are dropped from the right when they are 0. *)
Lemma number_text_examples :
  padLeft 3 "5" = "005"
  ∧ toText (number 1.005) = "1.005"
  ∧ toText (number 0.05) = "0.05"
  ∧ toText (number (-12.5)) = "-12.5"
  ∧ Text (number 1234567.891) "#,###.0" = "1,234,567.9"
  ∧ Text (number 1234.5) "#,###" = "1,235"
  ∧ Text (number 0.104) "#%" = "10%".
Proof. repeat split; vm_compute; reflexivity. Qed.

Lemma roundHalfAway_inject_Z (n : Z) : roundHalfAway (inject_Z n) = n.
Proof.
  unfold roundHalfAway. destruct (Qle_bool 0 (inject_Z n)).
  - unfold Qfloor, Qplus, inject_Z. simpl.
    change (Z.pos (1 * 2)) with 2%Z.
    symmetry. apply (Z.div_unique_pos _ _ _ 1); lia.
  - unfold Qfloor, Qplus, Qopp, inject_Z. simpl.
    change (Z.pos (1 * 2)) with 2%Z.
    rewrite <- (Z.div_unique_pos (- n * 2 + 1 * 1) 2 (- n) 1); lia.
Qed.

Lemma fractionDigit (d : Z) :
  (0 <= d < 10)%Z →
  (if (String.length
         (trimFraction 0 (padLeft 16 (natDigits (d * 1000000000000000))))
       =? 0)%nat
   then ""
   else "." ++ trimFraction 0
                 (padLeft 16 (natDigits (d * 1000000000000000))))
  = if (d =? 0)%Z then "" else "." ++ natDigits d.
Proof.
  intros Hd.
  assert (d = 0 ∨ d = 1 ∨ d = 2 ∨ d = 3 ∨ d = 4 ∨ d = 5 ∨ d = 6 ∨ d = 7
          ∨ d = 8 ∨ d = 9)%Z as H by lia.
  repeat (destruct H as [-> | H]; [vm_compute; reflexivity|]).
  subst. vm_compute. reflexivity.
Qed.

(** A number rounded to one decimal place is written as its sign, the
    plain decimal numeral of its integer part and, unless it is 0, one
    fractional digit: no digit grouping and no trailing [".0"]. *)
Lemma toText_Round1 (q : Q) :
  toText (VNum (Round (Fin q) 1)) = tenthsText (roundHalfAway (q * 10)).
Proof.
  unfold Round. change (inject_Z (pow10 1)) with 10%Q.
  set (z := roundHalfAway (q * 10)).
  unfold toText, formatNumber.
  cbn [percent defaultFormat maxFrac minFrac grouping].
  change (pow10 16) with (10 * 1000000000000000)%Z.
  assert (roundHalfAway (inject_Z z / 10 * inject_Z (10 * 1000000000000000))
          = (z * 1000000000000000)%Z) as ->.
  { rewrite <- roundHalfAway_inject_Z. apply roundHalfAway_Qeq.
    rewrite !inject_Z_mult. field. }
  change (16 =? 0)%nat with false. cbv iota.
  rewrite Z.abs_mul. change (Z.abs 1000000000000000) with 1000000000000000%Z.
  rewrite Z.div_mul_cancel_r by lia.
  rewrite Z.mul_mod_distr_r by lia.
  rewrite (fractionDigit (Z.abs z mod 10)) by (apply Z.mod_pos_bound; lia).
  rewrite append_empty. unfold tenthsText. do 2 f_equal.
  destruct (Z.ltb_spec (z * 1000000000000000) 0),
    (Z.ltb_spec z 0); (done || lia).
Qed.

Lemma formatCompact_ranges (q : Q) :
  ProjectCost.formatCompact (number q)
  = if Qltb (Qabs q) 1000 then
      "$" ++ toText (VNum (Round (Fin q) 1))
    else if Qltb (Qabs q) 1000000 then
      "$" ++ toText (VNum (Round (Fin (q / 1000)) 1)) ++ "K"
    else if Qltb (Qabs q) 1000000000 then
      "$" ++ toText (VNum (Round (Fin (q / 1000000)) 1)) ++ "M"
    else
      "$" ++ toText (VNum (Round (Fin (q / 1000000000)) 1)) ++ "B".
Proof. reflexivity. Qed.

Lemma FormatCompact_ranges (q : Q) :
  TruckStats.FormatCompact (number q)
  = if Qle_bool 1000000000 (Qabs q) then
      toText (VNum (Round (Fin (q / 1000000000)) 1)) ++ "B"
    else if Qle_bool 1000000 (Qabs q) then
      toText (VNum (Round (Fin (q / 1000000)) 1)) ++ "M"
    else if Qle_bool 1000 (Qabs q) then
      toText (VNum (Round (Fin (q / 1000)) 1)) ++ "K"
    else
      toText (VNum (Round (Fin q) 1)).
Proof.
  unfold TruckStats.FormatCompact, number.
  cbn [IsEmpty IsNan orb Number nabs nge].
  destruct (Qle_bool 1000000000 (Qabs q));
    [by apply FormatCompact_scaled|].
  destruct (Qle_bool 1000000 (Qabs q));
    [by apply FormatCompact_scaled|].
  destruct (Qle_bool 1000 (Qabs q));
    [by apply FormatCompact_scaled|].
  rewrite <- (append_empty (toText _)). apply FormatCompact_unscaled.
Qed.




(** The formatter of the Project_Cost_Construction script tests
    [IsEmpty] only; a NaN falls through all three comparisons. *)
Lemma formatCompact_NaN_unchecked :
  ProjectCost.formatCompact (VNum NaN) = "$NaNB".
Proof. reflexivity. Qed.

(** ** The unavailable data source and missing fields *)

(** With the selection view present and the full-layer key absent every
    script returns its fixed message, whatever is selected. *)
Lemma unavailable_source_message dataSources selectionSource :
  dataSources !! selectionID = Some selectionSource →
  dataSources !! fullLayerID = None →
  AADT.script dataSources = Ok (styled 20 accessError)
  ∧ ProjectsConstruction.script dataSources = Ok (styled 20 accessError)
  ∧ FatalCrashes.script dataSources = Ok (styled 20 accessError)
  ∧ ProjectCost.script dataSources = Ok (styled 20 accessError)
  ∧ TotalMiles.script dataSources = Ok (styled 20 accessError)
  ∧ FourDPlusMiles.script dataSources = Ok (styled 20 accessError)
  ∧ CorridorTitle.script dataSources = Ok (styled 22 accessError)
  ∧ TruckStats.script dataSources
    = Ok (styled 20 "Error: Data Source Not Found").
Proof.
  intros Hs Hf. repeat split; by eapply frame_unavailable.
Qed.

Lemma unavailable_source_example :
  AADT.script (selectionOnly [Sample.refNear]) = Ok (styled 20 accessError)
  ∧ AADT.script (selectionOnly []) = Ok (styled 20 accessError)
  ∧ TruckStats.script (selectionOnly [Sample.refTruck])
    = Ok (styled 20 "Error: Data Source Not Found").
Proof. repeat split; vm_compute; reflexivity. Qed.

Lemma truck_scan_total targetMiles allFeats vals :
  ∃ vals', TruckStats.scan targetMiles allFeats vals = Ok vals'.
Proof.
  induction allFeats as [|f rest IH]; [by eexists|].
  cbn [TruckStats.scan]. rewrite !GetVal_total. cbn [mbind result_bind].
  destruct (_ && _); [by eexists | apply IH].
Qed.

Lemma truck_resolve_total selFeature allFeats :
  ∃ vals, TruckStats.resolve selFeature allFeats = Ok vals.
Proof.
  unfold TruckStats.resolve. rewrite !GetVal_total. cbn [mbind result_bind].
  destruct (_ || _); [|by eexists].
  destruct (negb _); [apply truck_scan_total | by eexists].
Qed.

(** The truck-statistics script reads every field through [GetVal]: with
    the selection view present it returns a record whatever the features
    contain or lack. *)
Lemma truck_script_never_raises dataSources selectionSource :
  dataSources !! selectionID = Some selectionSource →
  ∃ out, TruckStats.script dataSources = Ok out.
Proof.
  intros Hs. unfold TruckStats.script, frame.
  rewrite (bracket_Some _ _ _ Hs). cbn [mbind result_bind].
  destruct (HasKey dataSources fullLayerID) eqn:Hk; [|by eexists].
  unfold HasKey in Hk. apply bool_decide_eq_true in Hk as [full Hfull].
  rewrite (bracket_Some _ _ _ Hfull). cbn [mbind result_bind].
  destruct (selectedFeatures selectionSource) as [|first rest].
  - cbn [Count List.length Nat.ltb Nat.leb First head].
    unfold TruckStats.caseB. rewrite truck_averages_spec. by eexists.
  - cbn [Count List.length Nat.ltb Nat.leb First head].
    unfold TruckStats.caseA.
    destruct (truck_resolve_total first (layer full)) as [vals ->].
    by eexists.
Qed.

(** C7 (evaluation at the failing input).  The selected feature comes from
    a selection view that lacks the AADT field, the case the comment of the
    AADT script announces ("AADT might be missing from the selection
    view").  The AADT script reads [selFeature["AADT"]] directly and
    raises; the truck-statistics script, which reads through [GetVal],
    falls back to the reference feature of the same length. *)
Lemma C7_missing_field_raises :
  AADT.script (dataSourcesOf [SampleMissing.milesOnly] [Sample.refTruck])
  = Raise (KeyNotFound "AADT")
  ∧ TruckStats.script
      (dataSourcesOf [SampleMissing.milesOnly] [Sample.refTruck])
    = Ok (styled 20 "200 / 10% / 50 Tons").
Proof. split; vm_compute; reflexivity. Qed.

(** ** The full-layer identifier *)

Lemma replaceFrom_skip_all searchText replacementText skip s :
  (String.length s <= skip)%nat →
  replaceFrom searchText replacementText skip s = "".
Proof.
  revert skip. induction s as [|c r IH]; intros skip Hlen; [done|].
  destruct skip as [|k]; [simpl in Hlen; lia|].
  cbn [replaceFrom]. apply IH. simpl in Hlen. lia.
Qed.

Lemma eqb_prefix (s : string) : String.prefix s s = true.
Proof.
  induction s as [|c r IH]; [done|].
  cbn [String.prefix]. destruct (ascii_dec c c); [done|congruence].
Qed.

(** A text that is exactly the search text is replaced as a whole. *)
Lemma replaceFrom_exact searchText replacementText :
  searchText ≠ "" →
  replaceFrom searchText replacementText 0 searchText
  = replacementText ++ "".
Proof.
  destruct searchText as [|c r]; [done|]. intros _.
  cbn [replaceFrom]. rewrite eqb_prefix. f_equal.
  apply replaceFrom_skip_all. simpl. lia.
Qed.

Lemma Replace_strips_suffix (searchText s : string) :
  searchText ≠ "" →
  occursBeforeEnd searchText s = false →
  Replace s searchText "" = stripSuffix searchText s.
Proof.
  intros Hne. unfold Replace.
  destruct searchText as [|a p] eqn:Hsearch; [done|]. rewrite <- Hsearch.
  assert (searchText ≠ "") as Hne' by (by rewrite Hsearch).
  clear Hne Hsearch a p.
  induction s as [|c r IH]; intros Hocc.
  - cbn [replaceFrom stripSuffix]. by destruct (String.eqb "" searchText).
  - cbn [occursBeforeEnd] in Hocc.
    apply orb_false_elim in Hocc as [Hhere Hlater].
    destruct (String.eqb (String c r) searchText) eqn:E.
    + apply String.eqb_eq in E. rewrite E.
      rewrite (replaceFrom_exact _ _ Hne').
      destruct searchText; [done|]. cbn [stripSuffix].
      by rewrite String.eqb_refl.
    + rewrite andb_true_r in Hhere.
      cbn [replaceFrom stripSuffix]. rewrite Hhere, E.
      by rewrite (IH Hlater).
Qed.

Lemma length_append (s t : string) :
  String.length (s ++ t) = (String.length s + String.length t)%nat.
Proof.
  induction s as [|c r IH]; [done|].
  change (String c r ++ t) with (String c (r ++ t)).
  cbn [String.length]. by rewrite IH.
Qed.

Lemma stripSuffix_app (suffix base : string) :
  stripSuffix suffix (base ++ suffix) = base.
Proof.
  induction base as [|c r IH].
  - change ("" ++ suffix) with suffix.
    destruct suffix; cbn [stripSuffix]; by rewrite String.eqb_refl.
  - change (String c r ++ suffix) with (String c (r ++ suffix)).
    cbn [stripSuffix].
    destruct (String.eqb (String c (r ++ suffix)) suffix) eqn:E.
    + apply String.eqb_eq in E. apply (f_equal String.length) in E.
      cbn [String.length] in E. rewrite length_append in E. lia.
    + by rewrite IH.
Qed.

(** C8.  The full-layer identifier that the scripts compute is their
    selection identifier with the trailing ["-selection"] stripped from the
    end and all other characters unchanged: the selection identifier is
    the full-layer identifier followed by ["-selection"].  The same holds
    for every identifier in which ["-selection"] occurs at the end only. *)
Theorem C8_full_layer_identifier :
  fullLayerID = stripSuffix "-selection" selectionID
  ∧ selectionID = fullLayerID ++ "-selection"
  ∧ (∀ selectionID : string,
       occursBeforeEnd "-selection" selectionID = false →
       fullLayerIDOf selectionID = stripSuffix "-selection" selectionID)
  ∧ (∀ base : string,
       occursBeforeEnd "-selection" (base ++ "-selection") = false →
       fullLayerIDOf (base ++ "-selection") = base).
Proof.
  split; [reflexivity | split; [reflexivity | split]].
  - intros id Hocc. unfold fullLayerIDOf.
    by apply Replace_strips_suffix.
  - intros base Hocc. unfold fullLayerIDOf.
    rewrite Replace_strips_suffix by done. apply stripSuffix_app.
Qed.

Lemma C8_full_layer_identifier_witness :
  fullLayerIDOf selectionID = stripSuffix "-selection" selectionID
  ∧ fullLayerIDOf ("layer-3" ++ "-selection") = "layer-3".
Proof.
  split.
  - apply (proj1 (proj2 (proj2 C8_full_layer_identifier)) selectionID).
    reflexivity.
  - apply (proj2 (proj2 (proj2 C8_full_layer_identifier)) "layer-3").
    reflexivity.
Defined.

(** [Replace] is not a suffix operation: it removes every occurrence of
    the search text.  The identifier of the scripts contains
    ["-selection"] once, at its end; in an identifier with an earlier
    occurrence that one would go as well. *)
Lemma Replace_removes_inner_occurrences :
  occursBeforeEnd "-selection" selectionID = false
  ∧ fullLayerIDOf "dataSource_1-selection-layer-2-selection"
    = "dataSource_1-layer-2"
  ∧ stripSuffix "-selection" "dataSource_1-selection-layer-2-selection"
    = "dataSource_1-selection-layer-2".
Proof. repeat split; reflexivity. Qed.

(** ** Styling *)

(** C9.  For each script the [text] record of the output is the same for
    any two inputs on which the script returns: bold, colour
    ['rgb(0, 86, 169)'], not italic, not underlined, not struck, and the
    size fixed for that script (22 for the corridor title, 20 for the
    others).  The input reaches the [value] string only. *)
Theorem C9_constant_styling :
  ∀ script size, (script, size) ∈ scriptsWithSize →
    ∀ dataSources1 dataSources2 out1 out2,
      script dataSources1 = Ok out1 →
      script dataSources2 = Ok out2 →
      Widget.text out1 = Widget.text out2
      ∧ Widget.text out1
        = {| Widget.size := size;
             Widget.bold := true;
             Widget.color := "rgb(0, 86, 169)";
             Widget.italic := false;
             Widget.underline := false;
             Widget.strike := false |}.
Proof.
  intros script size Hin ds1 ds2 out1 out2 H1 H2.
  unfold scriptsWithSize in Hin.
  repeat (apply elem_of_cons in Hin as [Heq | Hin];
          [inversion Heq; subst script size;
           apply frame_text in H1; apply frame_text in H2;
           by rewrite H1, H2 |]).
  by apply elem_of_nil in Hin.
Qed.

Lemma C9_constant_styling_witness :
  Widget.text (styled 20 "1,200") = Widget.text (styled 20 "0").
Proof.
  refine (proj1 (C9_constant_styling AADT.script 20
            _
            (dataSourcesOf [Sample.selectedNoAADT] [Sample.refNear])
            (dataSourcesOf [] [])
            (styled 20 "1,200") (styled 20 "0") _ _)).
  - unfold scriptsWithSize. apply elem_of_cons. by left.
  - vm_compute. reflexivity.
  - vm_compute. reflexivity.
Defined.

(** ** The display guard of the AADT script *)

(** C10.  In the AADT script, with a feature selected, a resolved AADT
    that is present but not strictly greater than 0 is displayed as ["0"]
    rather than as the value; only a present, strictly positive value is
    formatted (with the [#,###] picture) and displayed.  The first two
    parts state this for any resolved value, through the test of the
    script; the last two for a number [q], zero or negative against
    positive. *)
Theorem C10_AADT_display_guard
    (dataSources : gmap string DataSource) (first : gmap string Value)
    (rest reference : list (gmap string Value)) (valAADT : Value) :
  context dataSources (first :: rest) reference →
  resolveField "AADT" first reference = Ok valAADT →
  (IsEmpty valAADT = false → ngt (Number valAADT) (Fin 0) = false →
     AADT.script dataSources = Ok (styled 20 "0"))
  ∧ (IsEmpty valAADT = false → ngt (Number valAADT) (Fin 0) = true →
     AADT.script dataSources = Ok (styled 20 (Text valAADT "#,###")))
  ∧ (∀ q : Q, valAADT = number q → (q <= 0)%Q →
     AADT.script dataSources = Ok (styled 20 "0"))
  ∧ (∀ q : Q, valAADT = number q → (0 < q)%Q →
     AADT.script dataSources = Ok (styled 20 (Text (number q) "#,###"))).
Proof.
  intros Hc Hr. unfold AADT.script.
  rewrite (frame_selected _ _ _ _ _ _ _ _ Hc). unfold AADT.caseA.
  rewrite Hr. cbn [mbind result_bind]. unfold AADT.display.
  split; [|split; [|split]].
  - intros -> ->. reflexivity.
  - intros -> ->. reflexivity.
  - intros q -> Hq. cbn [number IsEmpty negb andb Number ngt nlt].
    by rewrite (Qltb_false _ _ Hq).
  - intros q -> Hq. cbn [number IsEmpty negb andb Number ngt nlt].
    by rewrite (Qltb_true _ _ Hq).
Qed.

Lemma C10_AADT_display_guard_witness :
  AADT.script
    (dataSourcesOf [feature [("AADT", number (-3))]] [Sample.refNear])
  = Ok (styled 20 "0")
  ∧ AADT.script (dataSourcesOf [Sample.refNear] [])
    = Ok (styled 20 "1,200")
  ∧ AADT.script
      (dataSourcesOf [feature [("AADT", VText "n/a")]] [Sample.refNear])
    = Ok (styled 20 "0").
Proof.
  split; [|split].
  - refine (proj1 (proj2 (proj2 (C10_AADT_display_guard _
                     (feature [("AADT", number (-3))])
                     [] [Sample.refNear] (number (-3))
                     (context_dataSourcesOf _ _) _))) (-3)%Q _ _).
    + reflexivity.
    + reflexivity.
    + vm_compute. discriminate.
  - refine (proj2 (proj2 (proj2 (C10_AADT_display_guard _ Sample.refNear
                     [] [] (number 1200)
                     (context_dataSourcesOf _ _) _))) 1200%Q _ _).
    + reflexivity.
    + reflexivity.
    + reflexivity.
  - refine (proj1 (C10_AADT_display_guard _
                     (feature [("AADT", VText "n/a")])
                     [] [Sample.refNear] (VText "n/a")
                     (context_dataSourcesOf _ _) _) _ _).
    + reflexivity.
    + reflexivity.
    + reflexivity.
Defined.

(** * Further properties of the scripts *)

(** ** Missing keys *)

(** X1.  [GetVal] never raises.  It returns the value of the field when the
    feature has it and null when the field is missing, where the plain
    bracket access raises. *)
Theorem GetVal_safe (feat : gmap string Value) (key : string) :
  (∃ v, GetVal feat key = Ok v)
  ∧ (feat !! key = None →
     GetVal feat key = Ok VNull
     ∧ bracket feat key = Raise (KeyNotFound key))
  ∧ (∀ v, feat !! key = Some v →
     GetVal feat key = Ok v ∧ bracket feat key = Ok v).
Proof.
  rewrite GetVal_total. split; [by eexists | split].
  - intros H. rewrite H. split; [done | by apply bracket_None].
  - intros v H. rewrite H. split; [done | by apply bracket_Some].
Qed.

Lemma GetVal_safe_witness :
  GetVal SampleMissing.milesOnly "AADT" = Ok VNull
  ∧ bracket SampleMissing.milesOnly "AADT" = Raise (KeyNotFound "AADT")
  ∧ GetVal SampleMissing.milesOnly "Total_Miles" = Ok (number 5).
Proof.
  split; [|split].
  - apply (proj1 (proj2 (GetVal_safe SampleMissing.milesOnly "AADT"))).
    reflexivity.
  - apply (proj1 (proj2 (GetVal_safe SampleMissing.milesOnly "AADT"))).
    reflexivity.
  - apply (proj2 (proj2 (GetVal_safe SampleMissing.milesOnly "Total_Miles"))
             (number 5)).
    reflexivity.
Defined.

(** Witness of X2: a selected feature and a reference feature that lack
    every field the script reads. *)
Lemma truck_script_never_raises_witness :
  ∃ out,
    TruckStats.script
      (dataSourcesOf [SampleMissing.milesOnly] [SampleEmpty.noFields])
    = Ok out.
Proof.
  apply (truck_script_never_raises _
           {| layer := [SampleEmpty.noFields];
              selectedFeatures := [SampleMissing.milesOnly] |}).
  reflexivity.
Defined.

(** Witness of X3. *)
Lemma unavailable_source_message_witness :
  AADT.script (selectionOnly [Sample.refNear]) = Ok (styled 20 accessError)
  ∧ TruckStats.script (selectionOnly [])
    = Ok (styled 20 "Error: Data Source Not Found").
Proof.
  split.
  - apply (proj1 (unavailable_source_message (selectionOnly [Sample.refNear])
                    {| layer := []; selectedFeatures := [Sample.refNear] |}
                    eq_refl eq_refl)).
  - apply (proj2 (proj2 (proj2 (proj2 (proj2 (proj2 (proj2
             (unavailable_source_message (selectionOnly [])
                {| layer := []; selectedFeatures := [] |}
                eq_refl eq_refl)))))))).
Defined.

Lemma frame_no_selection size errorText caseA caseB dataSources :
  dataSources !! selectionID = None →
  frame size errorText caseA caseB dataSources
  = Raise (KeyNotFound selectionID).
Proof. intros H. unfold frame. by rewrite (bracket_None _ _ H). Qed.

(** X4.  The selection view is fetched before the full-layer key is tested
    and without a test of its own: when the selection key is absent every
    script raises, also when the full-layer key is absent too, and the
    error text is not reached. *)
Theorem selection_key_absent_raises :
  ∀ script size, (script, size) ∈ scriptsWithSize →
    ∀ dataSources : gmap string DataSource,
      dataSources !! selectionID = None →
      script dataSources = Raise (KeyNotFound selectionID).
Proof.
  intros script size Hin ds Hs. unfold scriptsWithSize in Hin.
  repeat (apply elem_of_cons in Hin as [Heq | Hin];
          [inversion Heq; subst script size; by apply frame_no_selection |]).
  by apply elem_of_nil in Hin.
Qed.

Lemma selection_key_absent_raises_witness :
  AADT.script ∅ = Raise (KeyNotFound selectionID).
Proof.
  apply (selection_key_absent_raises AADT.script 20).
  - unfold scriptsWithSize. apply elem_of_cons. by left.
  - reflexivity.
Defined.

(** X5.  Six scripts read the field of the first selected feature by plain
    bracket access.  With both data sources present and a feature selected,
    each of them raises when that feature lacks the field it reads first,
    whatever the reference layer holds. *)
Theorem unguarded_field_raises
    (dataSources : gmap string DataSource) (first : gmap string Value)
    (rest reference : list (gmap string Value)) :
  context dataSources (first :: rest) reference →
  (first !! "AADT" = None →
     AADT.script dataSources = Raise (KeyNotFound "AADT"))
  ∧ (first !! "Projects_Construction" = None →
     ProjectsConstruction.script dataSources
     = Raise (KeyNotFound "Projects_Construction"))
  ∧ (first !! "Number_Of_Fatal_Crashes" = None →
     FatalCrashes.script dataSources
     = Raise (KeyNotFound "Number_Of_Fatal_Crashes"))
  ∧ (first !! "Project_Cost_Construction" = None →
     ProjectCost.script dataSources
     = Raise (KeyNotFound "Project_Cost_Construction"))
  ∧ (first !! "Total_Miles" = None →
     TotalMiles.script dataSources = Raise (KeyNotFound "Total_Miles"))
  ∧ (first !! "Corridor" = None →
     CorridorTitle.script dataSources = Raise (KeyNotFound "Corridor")).
Proof.
  intros Hc.
  repeat split; intros H;
    unfold AADT.script, ProjectsConstruction.script, FatalCrashes.script,
      ProjectCost.script, TotalMiles.script, CorridorTitle.script;
    rewrite (frame_selected _ _ _ _ _ _ _ _ Hc);
    unfold AADT.caseA, ProjectsConstruction.caseA, FatalCrashes.caseA,
      ProjectCost.caseA, TotalMiles.caseA, CorridorTitle.caseA, resolveField;
    by rewrite (bracket_None _ _ H).
Qed.

Lemma unguarded_field_raises_witness :
  FatalCrashes.script
    (dataSourcesOf [SampleMissing.milesOnly] [Sample.refTruck])
  = Raise (KeyNotFound "Number_Of_Fatal_Crashes")
  ∧ CorridorTitle.script
      (dataSourcesOf [SampleMissing.milesOnly] [Sample.refTruck])
    = Raise (KeyNotFound "Corridor").
Proof.
  split.
  - apply (proj1 (proj2 (proj2 (unguarded_field_raises _
             SampleMissing.milesOnly [] [Sample.refTruck]
             (context_dataSourcesOf _ _)))));
      reflexivity.
  - apply (proj2 (proj2 (proj2 (proj2 (proj2 (unguarded_field_raises _
             SampleMissing.milesOnly [] [Sample.refTruck]
             (context_dataSourcesOf _ _)))))));
      reflexivity.
Defined.

(** ** The fallbacks of the 4D+ miles and truck-statistics scripts *)

Lemma fourD_scanHWY_first targetHWY
    (pre : list (gmap string Value)) f post st :
  Forall (λ g, sameHWY targetHWY g = false) pre →
  sameHWY targetHWY f = true →
  FourDPlusMiles.scanHWY (hwyKey targetHWY) (pre ++ f :: post)%list st
  = Ok (fieldOf "four_D_plus_miles" f, true).
Proof.
  intros Hpre Hf. induction Hpre as [|g pre Hg _ IH].
  - cbn [app FourDPlusMiles.scanHWY]. rewrite !GetVal_total.
    cbn [mbind result_bind]. fold (fieldOf "HWY" f).
    fold (hwyKey (fieldOf "HWY" f)). unfold sameHWY in Hf. by rewrite Hf.
  - cbn [app FourDPlusMiles.scanHWY]. rewrite !GetVal_total.
    cbn [mbind result_bind]. fold (fieldOf "HWY" g).
    fold (hwyKey (fieldOf "HWY" g)). unfold sameHWY in Hg. by rewrite Hg.
Qed.

Lemma fourD_scanHWY_none targetHWY allFeats st :
  Forall (λ g, sameHWY targetHWY g = false) allFeats →
  FourDPlusMiles.scanHWY (hwyKey targetHWY) allFeats st = Ok st.
Proof.
  intros Hall. induction Hall as [|g rest Hg _ IH]; [done|].
  cbn [FourDPlusMiles.scanHWY]. rewrite !GetVal_total.
  cbn [mbind result_bind]. fold (fieldOf "HWY" g).
  fold (hwyKey (fieldOf "HWY" g)). unfold sameHWY in Hg. by rewrite Hg.
Qed.

Lemma fourD_scanMiles_first targetMiles
    (pre : list (gmap string Value)) f post st :
  Forall (λ g, guardedClose targetMiles g = false) pre →
  guardedClose targetMiles f = true →
  FourDPlusMiles.scanMiles targetMiles (pre ++ f :: post)%list st
  = Ok (fieldOf "four_D_plus_miles" f, true).
Proof.
  intros Hpre Hf. induction Hpre as [|g pre Hg _ IH].
  - cbn [app FourDPlusMiles.scanMiles]. rewrite !GetVal_total.
    cbn [mbind result_bind]. fold (fieldOf "Total_Miles" f).
    fold (withinTolerance (fieldOf "Total_Miles" f) targetMiles).
    unfold guardedClose in Hf. by rewrite Hf.
  - cbn [app FourDPlusMiles.scanMiles]. rewrite !GetVal_total.
    cbn [mbind result_bind]. fold (fieldOf "Total_Miles" g).
    fold (withinTolerance (fieldOf "Total_Miles" g) targetMiles).
    unfold guardedClose in Hg. by rewrite Hg.
Qed.

Lemma fourD_scanMiles_none targetMiles allFeats st :
  Forall (λ g, guardedClose targetMiles g = false) allFeats →
  FourDPlusMiles.scanMiles targetMiles allFeats st = Ok st.
Proof.
  intros Hall. induction Hall as [|g rest Hg _ IH]; [done|].
  cbn [FourDPlusMiles.scanMiles]. rewrite !GetVal_total.
  cbn [mbind result_bind]. fold (fieldOf "Total_Miles" g).
  fold (withinTolerance (fieldOf "Total_Miles" g) targetMiles).
  unfold guardedClose in Hg. by rewrite Hg.
Qed.

(** X6.  4D+ miles, Strategy A.  For a selected feature without a value of
    its own and with a non-empty [HWY], the script takes the 4D+ miles of the
    first reference feature whose [HWY], lower-cased and trimmed, equals the
    selected one's.  The lengths play no part, and the taken value stands
    even if it is empty: Strategy B is not tried after a highway match. *)
Theorem fourD_highway_match
    (selFeature : gmap string Value)
    (pre : list (gmap string Value)) (f : gmap string Value)
    (post : list (gmap string Value)) :
  IsEmpty (fieldOf "four_D_plus_miles" selFeature) = true →
  IsEmpty (fieldOf "HWY" selFeature) = false →
  Forall (λ g, sameHWY (fieldOf "HWY" selFeature) g = false) pre →
  sameHWY (fieldOf "HWY" selFeature) f = true →
  FourDPlusMiles.resolve selFeature (pre ++ f :: post)%list
  = Ok (fieldOf "four_D_plus_miles" f).
Proof.
  intros Hval Hhwy Hpre Hf. unfold FourDPlusMiles.resolve.
  rewrite !GetVal_total. cbn [mbind result_bind].
  fold (fieldOf "four_D_plus_miles" selFeature).
  fold (fieldOf "HWY" selFeature). fold (fieldOf "Total_Miles" selFeature).
  rewrite Hval, Hhwy. cbn [negb].
  fold (hwyKey (fieldOf "HWY" selFeature)).
  by rewrite (fourD_scanHWY_first _ _ _ _ _ Hpre Hf).
Qed.

Lemma fourD_highway_match_witness :
  FourDPlusMiles.resolve SampleHWY.selected
    [SampleHWY.sameLength; SampleHWY.sameHighway]
  = Ok (number 20).
Proof.
  apply (fourD_highway_match SampleHWY.selected
           [SampleHWY.sameLength] SampleHWY.sameHighway []).
  - reflexivity.
  - reflexivity.
  - repeat constructor.
  - reflexivity.
Defined.

(** X7.  4D+ miles, Strategy B.  When the selected feature has no value of
    its own and Strategy A finds nothing (its [HWY] is empty, or no
    reference feature has the same highway), the script takes the 4D+ miles
    of the first reference feature whose [Total_Miles] is not empty and
    within 0.01 of the selected one's.  With an empty [Total_Miles] on the
    selected feature, or with no such reference feature, the value stays
    empty. *)
Theorem fourD_length_fallback
    (selFeature : gmap string Value) (allFeats : list (gmap string Value)) :
  IsEmpty (fieldOf "four_D_plus_miles" selFeature) = true →
  (IsEmpty (fieldOf "HWY" selFeature) = true
   ∨ Forall (λ g, sameHWY (fieldOf "HWY" selFeature) g = false) allFeats) →
  (IsEmpty (fieldOf "Total_Miles" selFeature) = true →
     FourDPlusMiles.resolve selFeature allFeats
     = Ok (fieldOf "four_D_plus_miles" selFeature))
  ∧ (IsEmpty (fieldOf "Total_Miles" selFeature) = false →
     ∀ (pre : list (gmap string Value)) f post,
       allFeats = (pre ++ f :: post)%list →
       Forall (λ g, guardedClose (fieldOf "Total_Miles" selFeature) g = false)
         pre →
       guardedClose (fieldOf "Total_Miles" selFeature) f = true →
       FourDPlusMiles.resolve selFeature allFeats
       = Ok (fieldOf "four_D_plus_miles" f))
  ∧ (IsEmpty (fieldOf "Total_Miles" selFeature) = false →
     Forall (λ g, guardedClose (fieldOf "Total_Miles" selFeature) g = false)
       allFeats →
     FourDPlusMiles.resolve selFeature allFeats
     = Ok (fieldOf "four_D_plus_miles" selFeature)).
Proof.
  intros Hval Hno.
  assert (∀ k : Value * bool → result Value,
    ((if negb (IsEmpty (fieldOf "HWY" selFeature))
      then FourDPlusMiles.scanHWY (hwyKey (fieldOf "HWY" selFeature)) allFeats
             (fieldOf "four_D_plus_miles" selFeature, false)
      else Ok (fieldOf "four_D_plus_miles" selFeature, false)) ≫= k)
    = k (fieldOf "four_D_plus_miles" selFeature, false)) as Hstart.
  { intros k. destruct Hno as [-> | Hno]; [done|].
    destruct (negb _); [|done]. by rewrite (fourD_scanHWY_none _ _ _ Hno). }
  unfold FourDPlusMiles.resolve. rewrite !GetVal_total.
  cbn [mbind result_bind].
  fold (fieldOf "four_D_plus_miles" selFeature).
  fold (fieldOf "HWY" selFeature). fold (fieldOf "Total_Miles" selFeature).
  fold (hwyKey (fieldOf "HWY" selFeature)).
  rewrite Hval. fold (@mbind result _). rewrite Hstart. cbn [snd fst negb].
  split; [|split].
  - by intros ->.
  - intros -> pre f post -> Hpre Hf. cbn [negb].
    by rewrite (fourD_scanMiles_first _ _ _ _ _ Hpre Hf).
  - intros -> Hall. cbn [negb].
    by rewrite (fourD_scanMiles_none _ _ _ Hall).
Qed.

Lemma fourD_length_fallback_witness :
  FourDPlusMiles.resolve SampleHWY.unnamed
    [SampleHWY.noLength; SampleHWY.sameHighway; SampleHWY.sameLength]
  = Ok (number 10)
  ∧ FourDPlusMiles.resolve SampleHWY.selected [SampleHWY.noLength]
    = Ok VNull.
Proof.
  split.
  - refine (proj1 (proj2 (fourD_length_fallback SampleHWY.unnamed
              [SampleHWY.noLength; SampleHWY.sameHighway; SampleHWY.sameLength]
              _ _)) _
              [SampleHWY.noLength; SampleHWY.sameHighway]
              SampleHWY.sameLength [] _ _ _).
    + reflexivity.
    + left. reflexivity.
    + reflexivity.
    + reflexivity.
    + repeat constructor.
    + reflexivity.
  - refine (proj2 (proj2 (fourD_length_fallback SampleHWY.selected
              [SampleHWY.noLength] _ _)) _ _).
    + reflexivity.
    + right. repeat constructor.
    + reflexivity.
    + repeat constructor.
Defined.

Lemma truck_scan_first targetMiles
    (pre : list (gmap string Value)) f post vals :
  Forall (λ g, guardedClose targetMiles g = false) pre →
  guardedClose targetMiles f = true →
  TruckStats.scan targetMiles (pre ++ f :: post)%list vals = Ok (valsOf f).
Proof.
  intros Hpre Hf. induction Hpre as [|g pre Hg _ IH].
  - cbn [app TruckStats.scan]. rewrite !GetVal_total.
    cbn [mbind result_bind]. fold (fieldOf "Total_Miles" f).
    fold (withinTolerance (fieldOf "Total_Miles" f) targetMiles).
    unfold guardedClose in Hf. by rewrite Hf.
  - cbn [app TruckStats.scan]. rewrite !GetVal_total.
    cbn [mbind result_bind]. fold (fieldOf "Total_Miles" g).
    fold (withinTolerance (fieldOf "Total_Miles" g) targetMiles).
    unfold guardedClose in Hg. by rewrite Hg.
Qed.

Lemma truck_scan_none targetMiles allFeats vals :
  Forall (λ g, guardedClose targetMiles g = false) allFeats →
  TruckStats.scan targetMiles allFeats vals = Ok vals.
Proof.
  intros Hall. induction Hall as [|g rest Hg _ IH]; [done|].
  cbn [TruckStats.scan]. rewrite !GetVal_total.
  cbn [mbind result_bind]. fold (fieldOf "Total_Miles" g).
  fold (withinTolerance (fieldOf "Total_Miles" g) targetMiles).
  unfold guardedClose in Hg. by rewrite Hg.
Qed.

(** X8.  Truck statistics, selected case.  When [Truck_AADT] or [Tons] of
    the selected feature is empty, the three values are those of the first
    reference feature whose [Total_Miles] is not empty and within 0.01 of
    the selected one's, a field that the reference feature lacks reading as
    null.  With an empty [Total_Miles] on the selected feature, or with no
    such reference feature, the three values are those read from the
    selected feature. *)
Theorem truck_fallback
    (selFeature : gmap string Value) (allFeats : list (gmap string Value)) :
  IsEmpty (fieldOf "Truck_AADT" selFeature)
  || IsEmpty (fieldOf "Tons" selFeature) = true →
  (IsEmpty (fieldOf "Total_Miles" selFeature) = true →
     TruckStats.resolve selFeature allFeats = Ok (valsOf selFeature))
  ∧ (IsEmpty (fieldOf "Total_Miles" selFeature) = false →
     ∀ (pre : list (gmap string Value)) f post,
       allFeats = (pre ++ f :: post)%list →
       Forall (λ g, guardedClose (fieldOf "Total_Miles" selFeature) g = false)
         pre →
       guardedClose (fieldOf "Total_Miles" selFeature) f = true →
       TruckStats.resolve selFeature allFeats = Ok (valsOf f))
  ∧ (IsEmpty (fieldOf "Total_Miles" selFeature) = false →
     Forall (λ g, guardedClose (fieldOf "Total_Miles" selFeature) g = false)
       allFeats →
     TruckStats.resolve selFeature allFeats = Ok (valsOf selFeature)).
Proof.
  intros Hempty. unfold TruckStats.resolve. rewrite !GetVal_total.
  cbn [mbind result_bind].
  fold (fieldOf "Truck_AADT" selFeature). fold (fieldOf "AADT" selFeature).
  fold (fieldOf "Tons" selFeature). fold (fieldOf "Total_Miles" selFeature).
  fold (valsOf selFeature). rewrite Hempty.
  split; [|split].
  - by intros ->.
  - intros -> pre f post -> Hpre Hf. cbn [negb].
    by apply truck_scan_first.
  - intros -> Hall. cbn [negb]. by apply truck_scan_none.
Qed.

Lemma truck_fallback_witness :
  TruckStats.resolve Sample.selectedNoTons [SampleHWY.noLength; Sample.refTruck]
  = Ok {| TruckStats.valTruckAADT := number 200;
          TruckStats.valTotalAADT := number 2000;
          TruckStats.valTons := number 50 |}
  ∧ TruckStats.resolve SampleMissing.milesOnly [SampleHWY.sameLength]
    = Ok {| TruckStats.valTruckAADT := VNull;
            TruckStats.valTotalAADT := VNull;
            TruckStats.valTons := VNull |}.
Proof.
  split.
  - refine (proj1 (proj2 (truck_fallback Sample.selectedNoTons
              [SampleHWY.noLength; Sample.refTruck] _)) _
              [SampleHWY.noLength] Sample.refTruck [] _ _ _).
    + reflexivity.
    + reflexivity.
    + reflexivity.
    + repeat constructor.
    + reflexivity.
  - refine (proj1 (proj2 (truck_fallback SampleMissing.milesOnly
              [SampleHWY.sameLength] _)) _
              [] SampleHWY.sameLength [] _ _ _).
    + reflexivity.
    + reflexivity.
    + reflexivity.
    + constructor.
    + reflexivity.
Defined.

(** ** The single-field fallback reads the layer up to the first match *)

Lemma scanByMiles_prefix fieldName targetMiles
    (pre : list (gmap string Value)) rest value :
  Forall (hasField "Total_Miles") pre →
  Forall (λ g, withinTolerance (milesOf g) targetMiles = false) pre →
  scanByMiles fieldName targetMiles (pre ++ rest)%list value
  = scanByMiles fieldName targetMiles rest value.
Proof.
  intros Hf Hn. induction pre as [|g pre IH]; [done|].
  inversion Hf as [|? ? [m Hm] Hf']; subst.
  inversion Hn as [|? ? Hg Hn']; subst.
  unfold milesOf in Hg. rewrite Hm in Hg. simpl in Hg.
  change ((g :: pre) ++ rest)%list with (g :: (pre ++ rest))%list.
  cbn [scanByMiles]. rewrite (bracket_Some _ _ _ Hm).
  cbn [mbind result_bind]. rewrite Hg. by apply IH.
Qed.

(** X10.  The fallback loop of the single-field scripts breaks at the first
    reference feature that passes its test
    [Abs(f["Total_Miles"] - targetMiles) < 0.01]: the reference features
    after it are not read, so the resolved value is the same whatever
    follows the match, also when later features lack [Total_Miles] or the
    target field. *)
Theorem fallback_stops_at_first_match
    (fieldName : string) (feature : gmap string Value)
    (value targetMiles : Value)
    (pre : list (gmap string Value)) (f : gmap string Value) (m v : Value) :
  feature !! fieldName = Some value → IsEmpty value = true →
  feature !! "Total_Miles" = Some targetMiles → IsEmpty targetMiles = false →
  Forall (hasField "Total_Miles") pre →
  Forall (λ g, withinTolerance (milesOf g) targetMiles = false) pre →
  f !! "Total_Miles" = Some m → withinTolerance m targetMiles = true →
  f !! fieldName = Some v →
  ∀ post, resolveField fieldName feature (pre ++ f :: post)%list = Ok v.
Proof.
  intros Hv He Hm Hne Hpre Hn Hfm Hclose Hfv post.
  rewrite (resolveField_fallback _ _ _ _ _ Hv He Hm Hne).
  rewrite (scanByMiles_prefix _ _ _ _ _ Hpre Hn).
  cbn [scanByMiles]. rewrite (bracket_Some _ _ _ Hfm).
  cbn [mbind result_bind]. rewrite Hclose. by apply bracket_Some.
Qed.

Lemma fallback_stops_at_first_match_witness :
  resolveField "AADT" Sample.selectedNoAADT
    [Sample.refFar; Sample.refNear; SampleEmpty.noFields]
  = Ok (number 1200).
Proof.
  apply (fallback_stops_at_first_match "AADT" Sample.selectedNoAADT
           VNull (number 12.5) [Sample.refFar] Sample.refNear
           (double 12.505) (number 1200)).
  - reflexivity.
  - reflexivity.
  - reflexivity.
  - reflexivity.
  - repeat constructor; eexists; reflexivity.
  - repeat constructor.
  - reflexivity.
  - reflexivity.
  - reflexivity.
Defined.

(** X11.  The same loop reads [Total_Miles] of every reference feature it
    meets, and the target field of the match, by plain bracket access.  A
    reference feature without [Total_Miles] that comes before any feature
    passing the test makes the script raise, even if a later feature would
    pass; so does a feature that passes the test and lacks the target
    field. *)
Theorem fallback_raises_on_incomplete_reference
    (fieldName : string) (feature : gmap string Value)
    (value targetMiles : Value)
    (pre : list (gmap string Value)) (g : gmap string Value)
    (post : list (gmap string Value)) :
  feature !! fieldName = Some value → IsEmpty value = true →
  feature !! "Total_Miles" = Some targetMiles → IsEmpty targetMiles = false →
  Forall (hasField "Total_Miles") pre →
  Forall (λ g, withinTolerance (milesOf g) targetMiles = false) pre →
  (g !! "Total_Miles" = None →
     resolveField fieldName feature (pre ++ g :: post)%list
     = Raise (KeyNotFound "Total_Miles"))
  ∧ (∀ m, g !! "Total_Miles" = Some m →
     withinTolerance m targetMiles = true →
     g !! fieldName = None →
     resolveField fieldName feature (pre ++ g :: post)%list
     = Raise (KeyNotFound fieldName)).
Proof.
  intros Hv He Hm Hne Hpre Hn.
  rewrite (resolveField_fallback _ _ _ _ _ Hv He Hm Hne).
  rewrite (scanByMiles_prefix _ _ _ _ _ Hpre Hn).
  cbn [scanByMiles]. split.
  - intros Hg. by rewrite (bracket_None _ _ Hg).
  - intros m Hgm Hclose Hgf. rewrite (bracket_Some _ _ _ Hgm).
    cbn [mbind result_bind]. rewrite Hclose. by apply bracket_None.
Qed.

Lemma fallback_raises_on_incomplete_reference_witness :
  resolveField "AADT" Sample.selectedNoAADT
    [Sample.refFar; SampleEmpty.noFields; Sample.refExact]
  = Raise (KeyNotFound "Total_Miles")
  ∧ resolveField "AADT" Sample.selectedNoAADT
      [feature [("Total_Miles", number 12.5)]]
    = Raise (KeyNotFound "AADT").
Proof.
  split.
  - refine (proj1 (fallback_raises_on_incomplete_reference "AADT"
              Sample.selectedNoAADT VNull (number 12.5)
              [Sample.refFar] SampleEmpty.noFields [Sample.refExact]
              _ _ _ _ _ _) _).
    + reflexivity.
    + reflexivity.
    + reflexivity.
    + reflexivity.
    + repeat constructor; eexists; reflexivity.
    + repeat constructor.
    + reflexivity.
  - refine (proj2 (fallback_raises_on_incomplete_reference "AADT"
              Sample.selectedNoAADT VNull (number 12.5)
              [] (feature [("Total_Miles", number 12.5)]) []
              _ _ _ _ _ _) (number 12.5) _ _ _).
    + reflexivity.
    + reflexivity.
    + reflexivity.
    + reflexivity.
    + constructor.
    + constructor.
    + reflexivity.
    + reflexivity.
    + reflexivity.
Defined.

(** X12.  When both the target field and [Total_Miles] of the selected
    feature are empty, the single-field scripts do not look at the
    reference layer at all: the value stays empty and the fixed zero string
    is shown, whatever the layer holds. *)
Theorem no_fingerprint_no_lookup
    (fieldName : string) (feature : gmap string Value) (value miles : Value) :
  feature !! fieldName = Some value → IsEmpty value = true →
  feature !! "Total_Miles" = Some miles → IsEmpty miles = true →
  (∀ allFeats, resolveField fieldName feature allFeats = Ok value)
  ∧ (∀ dataSources rest reference,
       context dataSources (feature :: rest) reference →
       (fieldName = "AADT" →
          AADT.script dataSources = Ok (styled 20 "0"))
       ∧ (fieldName = "Projects_Construction" →
          ProjectsConstruction.script dataSources = Ok (styled 20 "0"))
       ∧ (fieldName = "Number_Of_Fatal_Crashes" →
          FatalCrashes.script dataSources = Ok (styled 20 "0"))
       ∧ (fieldName = "Project_Cost_Construction" →
          ProjectCost.script dataSources = Ok (styled 20 "$0"))).
Proof.
  intros Hv He Hm Hme.
  assert (∀ allFeats, resolveField fieldName feature allFeats = Ok value)
    as Hres.
  { intros allFeats. unfold resolveField.
    rewrite (bracket_Some _ _ _ Hv). cbn [mbind result_bind]. rewrite He.
    rewrite (bracket_Some _ _ _ Hm). cbn [mbind result_bind].
    by rewrite Hme. }
  split; [done|].
  intros ds rest refs Hc. repeat split; intros ->.
  - unfold AADT.script. rewrite (frame_selected _ _ _ _ _ _ _ _ Hc).
    unfold AADT.caseA. rewrite Hres. cbn [mbind result_bind].
    by rewrite (AADT_display_empty _ He).
  - unfold ProjectsConstruction.script.
    rewrite (frame_selected _ _ _ _ _ _ _ _ Hc).
    unfold ProjectsConstruction.caseA. rewrite Hres.
    cbn [mbind result_bind]. by rewrite He.
  - unfold FatalCrashes.script.
    rewrite (frame_selected _ _ _ _ _ _ _ _ Hc).
    unfold FatalCrashes.caseA. rewrite Hres.
    cbn [mbind result_bind]. by rewrite He.
  - unfold ProjectCost.script.
    rewrite (frame_selected _ _ _ _ _ _ _ _ Hc).
    unfold ProjectCost.caseA. rewrite Hres.
    cbn [mbind result_bind]. by rewrite He.
Qed.

Lemma no_fingerprint_no_lookup_witness :
  resolveField "AADT" SampleEmpty.blank [SampleEmpty.noFields] = Ok VNull
  ∧ AADT.script (dataSourcesOf [SampleEmpty.blank] [SampleEmpty.noFields])
    = Ok (styled 20 "0").
Proof.
  split.
  - apply (proj1 (no_fingerprint_no_lookup "AADT" SampleEmpty.blank
                    VNull VNull eq_refl eq_refl eq_refl eq_refl)).
  - apply (proj1 (proj2 (no_fingerprint_no_lookup "AADT" SampleEmpty.blank
                    VNull VNull eq_refl eq_refl eq_refl eq_refl)
                    _ [] [SampleEmpty.noFields]
                    (context_dataSourcesOf _ _))).
    reflexivity.
Defined.

(** ** The two compact formatters *)

Lemma Qle_bool_weaken (a b x : Q) :
  (a <= b)%Q → Qle_bool b x = true → Qle_bool a x = true.
Proof.
  intros Hab H. apply Qle_bool_iff. apply Qle_bool_iff in H.
  by eapply Qle_trans.
Qed.

Lemma compact_formatters_agree_number (q : Q) :
  ProjectCost.formatCompact (number q)
  = "$" ++ TruckStats.FormatCompact (number q).
Proof.
  rewrite formatCompact_ranges, FormatCompact_ranges. unfold Qltb.
  destruct (Qle_bool 1000000000 (Qabs q)) eqn:E9.
  - rewrite (Qle_bool_weaken 1000000 1000000000 _ ltac:(done) E9).
    by rewrite (Qle_bool_weaken 1000 1000000000 _ ltac:(done) E9).
  - destruct (Qle_bool 1000000 (Qabs q)) eqn:E6.
    + by rewrite (Qle_bool_weaken 1000 1000000 _ ltac:(done) E6).
    + by destruct (Qle_bool 1000 (Qabs q)).
Qed.

(** X9.  The formatter of the cost script tests its thresholds upwards on
    the signed value, the formatter of the truck-statistics script tests
    them downwards on the absolute value and puts the sign back.  On every
    input that is empty or casts to a finite number they produce the same
    text, up to the ["$"] that only the first one prefixes. *)
Theorem compact_formatters_agree (n : Value) (q : Q) :
  Number n = Fin q →
  ProjectCost.formatCompact n = "$" ++ TruckStats.FormatCompact n.
Proof.
  intros Hn. destruct (IsEmpty n) eqn:E.
  - unfold ProjectCost.formatCompact, TruckStats.FormatCompact.
    by rewrite E.
  - assert (IsNan n = false) as Hnan.
    { destruct n as [|[|x|b]|s]; try done. }
    assert (ProjectCost.formatCompact n
            = ProjectCost.formatCompact (number q)) as ->.
    { unfold ProjectCost.formatCompact. rewrite E, Hn. reflexivity. }
    assert (TruckStats.FormatCompact n
            = TruckStats.FormatCompact (number q)) as ->.
    { unfold TruckStats.FormatCompact. rewrite E, Hnan, Hn. reflexivity. }
    apply compact_formatters_agree_number.
Qed.

Lemma compact_formatters_agree_witness :
  ProjectCost.formatCompact (VText "-1540")
  = "$" ++ TruckStats.FormatCompact (VText "-1540").
Proof.
  apply (compact_formatters_agree (VText "-1540") (-1540)).
  vm_compute. reflexivity.
Defined.

(** ** No feature to average *)

Lemma filter_none {A} (p : A → bool) (l : list A) :
  Forall (λ x, p x = false) l → List.filter p l = [].
Proof.
  induction 1 as [|x l Hx _ IH]; [done|].
  cbn [List.filter]. by rewrite Hx.
Qed.

(** X13.  Nothing selected.  If no reference feature has both AADT and
    Total_Miles present and strictly positive, nothing is accumulated and
    the AADT script shows ["0"]; if no reference feature has Truck_AADT and
    Total_Miles strictly positive, the truck-statistics script shows
    ["0 / 0% / 0"], whatever AADT and Tons hold. *)
Theorem no_counted_feature_shows_zero
    (allFeatures : list (gmap string Value)) :
  (Forall (λ f, hasField "AADT" f ∧ hasField "Total_Miles" f) allFeatures →
   Forall (λ f, AADT_counts f = false) allFeatures →
   AADT.accumulate allFeatures (Fin 0) (Fin 0) = Ok (Fin 0, Fin 0)
   ∧ AADT.caseB allFeatures = Ok "0")
  ∧ (Forall (λ f, truckCounted f = false) allFeatures →
     TruckStats.accumulate allFeatures TruckStats.zeroSums
     = Ok TruckStats.zeroSums
     ∧ TruckStats.caseB allFeatures = Ok "0 / 0% / 0").
Proof.
  split.
  - intros Hfields Hnone. split.
    + rewrite (AADT_accumulate_sums _ _ _ Hfields).
      by rewrite (filter_none _ _ Hnone).
    + apply (AADT_caseB_zero_weight _ Hfields).
      by rewrite (filter_none _ _ Hnone).
  - intros Hnone. split.
    + rewrite truck_accumulate_sums. by rewrite (filter_none _ _ Hnone).
    + unfold TruckStats.caseB. rewrite truck_averages_spec.
      by rewrite (filter_none _ _ Hnone).
Qed.

Lemma no_counted_feature_shows_zero_witness :
  AADT.caseB [Sample.selectedNoAADT; SampleEmpty.blank] = Ok "0"
  ∧ TruckStats.caseB [SampleTruck.noTrucks; SampleEmpty.noFields]
    = Ok "0 / 0% / 0".
Proof.
  split.
  - apply (proj1 (no_counted_feature_shows_zero
                    [Sample.selectedNoAADT; SampleEmpty.blank])).
    + repeat constructor; eexists; reflexivity.
    + repeat constructor.
  - apply (proj2 (no_counted_feature_shows_zero
                    [SampleTruck.noTrucks; SampleEmpty.noFields])).
    repeat constructor.
Defined.

(** ** Empty inputs *)

(** X16.  Nothing selected and an empty reference layer: the sums are 0,
    no average is taken, and the scripts show their zero texts. *)
Theorem empty_layer_outputs (dataSources : gmap string DataSource) :
  context dataSources [] [] →
  AADT.script dataSources = Ok (styled 20 "0")
  ∧ ProjectsConstruction.script dataSources = Ok (styled 20 "0")
  ∧ FatalCrashes.script dataSources = Ok (styled 20 "0")
  ∧ ProjectCost.script dataSources = Ok (styled 20 "$0")
  ∧ TotalMiles.script dataSources = Ok (styled 20 "0.0 mi")
  ∧ FourDPlusMiles.script dataSources = Ok (styled 20 "0.0 mi")
  ∧ TruckStats.script dataSources = Ok (styled 20 "0 / 0% / 0")
  ∧ CorridorTitle.script dataSources = Ok (styled 22 CorridorTitle.title).
Proof.
  intros Hc.
  repeat split;
    unfold AADT.script, ProjectsConstruction.script, FatalCrashes.script,
      ProjectCost.script, TotalMiles.script, FourDPlusMiles.script,
      TruckStats.script, CorridorTitle.script;
    by rewrite (frame_unselected _ _ _ _ _ _ Hc).
Qed.

Lemma empty_layer_outputs_witness :
  TotalMiles.script (dataSourcesOf [] []) = Ok (styled 20 "0.0 mi").
Proof.
  apply (proj1 (proj2 (proj2 (proj2 (proj2
           (empty_layer_outputs _ (context_dataSourcesOf [] []))))))).
Defined.

Lemma addResolved_fold_filter (vs : list Value) (a : num) :
  fold_left addResolved vs a
  = fold_left addResolved (List.filter (λ v, negb (IsEmpty v)) vs) a.
Proof.
  revert a. induction vs as [|v vs IH]; intros a; [done|].
  cbn [fold_left List.filter]. unfold addResolved at 2.
  destruct (negb (IsEmpty v)) eqn:E.
  - cbn [fold_left]. unfold addResolved at 3. rewrite E. apply IH.
  - apply IH.
Qed.

Lemma filter_map_resolved allFeats (sel : list (gmap string Value)) :
  List.filter (λ v, negb (IsEmpty v)) (map (resolved4D allFeats) sel)
  = map (resolved4D allFeats) (List.filter (resolvable4D allFeats) sel).
Proof.
  induction sel as [|f sel IH]; [done|].
  cbn [map List.filter]. unfold resolvable4D at 1.
  destruct (negb (IsEmpty (resolved4D allFeats f))); [|done].
  cbn [map]. by rewrite IH.
Qed.

(** X17.  4D+ miles, selected case.  A selected feature whose value stays
    empty after both strategies adds nothing to the total: removing such
    features from the selection leaves the output unchanged, and when no
    selected feature resolves the script shows ["0.0 mi"]. *)
Theorem fourD_unresolved_are_skipped
    (dataSources : gmap string DataSource) (first : gmap string Value)
    (rest reference : list (gmap string Value)) :
  context dataSources (first :: rest) reference →
  (∀ dataSources' first' rest',
     context dataSources' (first' :: rest') reference →
     List.filter (resolvable4D reference) (first :: rest) = first' :: rest' →
     FourDPlusMiles.script dataSources = FourDPlusMiles.script dataSources')
  ∧ (List.filter (resolvable4D reference) (first :: rest) = [] →
     FourDPlusMiles.script dataSources = Ok (styled 20 "0.0 mi")).
Proof.
  intros Hc.
  assert (FourDPlusMiles.script dataSources
          = Ok (styled 20
                  (Text (VNum (fold_left addResolved
                     (map (resolved4D reference)
                        (List.filter (resolvable4D reference) (first :: rest)))
                     (Fin 0))) "#,###.0" ++ " mi"))) as Hs.
  { unfold FourDPlusMiles.script.
    rewrite (frame_selected _ _ _ _ _ _ _ _ Hc).
    unfold FourDPlusMiles.caseA. rewrite fourD_total_fold.
    by rewrite addResolved_fold_filter, filter_map_resolved. }
  split.
  - intros ds' first' rest' Hc' Hfilter. rewrite Hs, Hfilter.
    unfold FourDPlusMiles.script.
    rewrite (frame_selected _ _ _ _ _ _ _ _ Hc').
    unfold FourDPlusMiles.caseA. by rewrite fourD_total_fold.
  - intros Hnone. rewrite Hs, Hnone. reflexivity.
Qed.

Lemma fourD_unresolved_are_skipped_witness :
  FourDPlusMiles.script
    (dataSourcesOf [SampleHWY.unnamed; Sample4D.seg2] [SampleHWY.noLength])
  = FourDPlusMiles.script
      (dataSourcesOf [Sample4D.seg2] [SampleHWY.noLength])
  ∧ FourDPlusMiles.script
      (dataSourcesOf [SampleHWY.unnamed] [SampleHWY.noLength])
    = Ok (styled 20 "0.0 mi").
Proof.
  split.
  - apply (proj1 (fourD_unresolved_are_skipped _ SampleHWY.unnamed
                    [Sample4D.seg2] [SampleHWY.noLength]
                    (context_dataSourcesOf _ _))
             _ Sample4D.seg2 []).
    + apply context_dataSourcesOf.
    + reflexivity.
  - apply (proj2 (fourD_unresolved_are_skipped _ SampleHWY.unnamed
                    [] [SampleHWY.noLength]
                    (context_dataSourcesOf _ _))).
    reflexivity.
Defined.

(** ** The unused helper of the 4D+ miles script *)

(** X18.  [NormalizeKey] is declared in 4D+_miles.js and not called; the
    script inlines its body.  The test of Strategy A is nevertheless
    exactly the comparison of normalized keys: for a non-empty target, a
    reference feature passes the test if and only if [NormalizeKey] gives
    the same result on its [HWY] and on the target.  An empty value
    normalizes to null and so equals no key of a non-empty value. *)
Theorem sameHWY_is_NormalizeKey_equality
    (targetHWY : Value) (f : gmap string Value) :
  IsEmpty targetHWY = false →
  (sameHWY targetHWY f = true
   ↔ FourDPlusMiles.NormalizeKey (fieldOf "HWY" f)
     = FourDPlusMiles.NormalizeKey targetHWY).
Proof.
  intros Ht. unfold sameHWY, FourDPlusMiles.NormalizeKey. rewrite Ht.
  fold (hwyKey targetHWY).
  destruct (IsEmpty (fieldOf "HWY" f)); cbn [negb andb].
  - split; [done | discriminate].
  - fold (hwyKey (fieldOf "HWY" f)). rewrite String.eqb_eq.
    split; [by intros -> | by intros [= ->]].
Qed.

Lemma sameHWY_is_NormalizeKey_equality_witness :
  FourDPlusMiles.NormalizeKey (fieldOf "HWY" SampleHWY.sameHighway)
  = FourDPlusMiles.NormalizeKey (VText "I-35W").
Proof.
  apply (sameHWY_is_NormalizeKey_equality (VText "I-35W")
           SampleHWY.sameHighway); reflexivity.
Defined.

(** ** Rounding carry in the compact formatters *)

Lemma roundHalfAway_nonneg (y : Q) :
  (0 <= y)%Q → roundHalfAway y = Qfloor (y + (1 # 2)).
Proof.
  intros H. unfold roundHalfAway. by rewrite (Qle_bool_true _ _ H).
Qed.

Lemma roundHalfAway_between (n : Z) (y : Q) :
  (0 <= y)%Q → (inject_Z n - (1 # 2) <= y)%Q → (y < inject_Z n + (1 # 2))%Q →
  roundHalfAway y = n.
Proof.
  intros H0 Hlo Hhi. rewrite (roundHalfAway_nonneg _ H0).
  assert (n <= Qfloor (y + (1 # 2)))%Z as H1.
  { rewrite <- (Qfloor_Z n). apply Qfloor_resp_le. lra. }
  assert (Qfloor (y + (1 # 2)) < n + 1)%Z as H2.
  { rewrite Zlt_Qlt. eapply Qle_lt_trans; [apply Qfloor_le|].
    rewrite inject_Z_plus. change (inject_Z 1) with 1%Q. lra. }
  lia.
Qed.

Lemma carry_text (q d : Q) (suffix : string) :
  (0 < d)%Q → (d * (19999 # 20) <= q)%Q → (q < d * 1000)%Q →
  toText (VNum (Round (Fin (q / d)) 1)) ++ suffix = "1000" ++ suffix.
Proof.
  intros Hd Hlo Hhi. f_equal. rewrite toText_Round1.
  assert (19999 # 20 <= q / d)%Q as H1.
  { apply Qle_shift_div_l; [done|]. lra. }
  assert (q / d <= 1000)%Q as H2.
  { apply Qle_shift_div_r; [done|]. lra. }
  assert (¬ (q / d == 1000)%Q) as H3.
  { intros H. assert (q == 1000 * d)%Q as Hq.
    { rewrite <- H. field. lra. }
    lra. }
  rewrite (roundHalfAway_between 10000 (q / d * 10)).
  - reflexivity.
  - lra.
  - change (inject_Z 10000) with 10000%Q. lra.
  - change (inject_Z 10000) with 10000%Q. lra.
Qed.

(** X20.  The suffix is chosen before the value is rounded.  A number just
    below a threshold is therefore shown as 1000 with the suffix of the
    lower range: from 999.95 up to 1000 both formatters write ["1000"], from
    999950 up to 1e6 ["1000K"], from 999950000 up to 1e9 ["1000M"]. *)
Theorem compact_format_carry (q : Q) :
  ((19999 # 20 <= q)%Q → (q < 1000)%Q →
     TruckStats.FormatCompact (number q) = "1000"
     ∧ ProjectCost.formatCompact (number q) = "$1000")
  ∧ ((999950 <= q)%Q → (q < 1000000)%Q →
     TruckStats.FormatCompact (number q) = "1000K"
     ∧ ProjectCost.formatCompact (number q) = "$1000K")
  ∧ ((999950000 <= q)%Q → (q < 1000000000)%Q →
     TruckStats.FormatCompact (number q) = "1000M"
     ∧ ProjectCost.formatCompact (number q) = "$1000M").
Proof.
  assert (∀ s, TruckStats.FormatCompact (number q) = s →
               TruckStats.FormatCompact (number q) = s
               ∧ ProjectCost.formatCompact (number q) = "$" ++ s) as Hboth.
  { intros s Hs. split; [done|].
    by rewrite compact_formatters_agree_number, Hs. }
  split; [|split]; intros Hlo Hhi; apply Hboth;
    rewrite FormatCompact_ranges;
    assert (Qabs q == q)%Q as Habs by (apply Qabs_pos; lra).
  - rewrite !Qle_bool_false by (rewrite Habs; lra).
    rewrite <- (append_empty (toText _)).
    rewrite (Round_Qeq q (q / 1) 1) by (field).
    apply (carry_text q 1 ""); lra.
  - rewrite !(Qle_bool_false 1000000000), !(Qle_bool_false 1000000)
      by (rewrite Habs; lra).
    rewrite Qle_bool_true by (rewrite Habs; lra).
    apply (carry_text q 1000 "K"); lra.
  - rewrite !(Qle_bool_false 1000000000) by (rewrite Habs; lra).
    rewrite Qle_bool_true by (rewrite Habs; lra).
    apply (carry_text q 1000000 "M"); lra.
Qed.

Lemma compact_format_carry_witness :
  ProjectCost.formatCompact (number 999.96) = "$1000"
  ∧ ProjectCost.formatCompact (number 999999) = "$1000K".
Proof.
  split.
  - apply (proj1 (compact_format_carry 999.96));
      vm_compute; (reflexivity || discriminate).
  - apply (proj1 (proj2 (compact_format_carry 999999)));
      vm_compute; (reflexivity || discriminate).
Defined.
